(** * The evaluation wizard of [webapp/src/app/page.tsx]

    The React component [Home] keeps the whole evaluation session in
    [useState] cells: the step cursor, the job description, the rubric,
    the résumé text, the three artifacts returned by the backend, the
    GitHub identifier, the [loading] and [error] cells and the threshold
    form.  Every control of the page is an event; every [async] function
    is a synchronous prefix that ends at its first [await], followed by
    one continuation per [await].  The requests that are waiting for the
    backend are kept beside the component state, so that a late response
    meets whatever state the page is in when it arrives.

    Conventions of the embedding:
    - a control can be used only in a state whose render shows it enabled;
      a click is handled against the state that was rendered, and the
      page is rendered again before the next event;
    - a fulfilled response carries the data its endpoint sends or no data
      at all; a rejection carries the optional [detail] the [catch] blocks
      look for;
    - choosing a file in the dialog opened by an "Upload File" button is
      one event, since the dialog is opened only while the button is
      enabled and nothing on the page can be clicked while it is open;
    - [alert], [console.error], the download link and the two effects that
      mirror [darkMode] into [localStorage] touch no state cell; the theme
      restored on mount is a [ToggleDarkMode] as far as the state goes;
    - scores and thresholds are rationals: every literal of the page
      (7.0, 6.0, 8.0) is one. *)

From Stdlib Require Import String List Bool Arith QArith Lia.
Import ListNotations.
Open Scope string_scope.
Open Scope nat_scope.

(** ** Values exchanged with the backend *)

(** A [File] picked in a file dialog; only its identity matters here. *)
Definition File := string.

(** [useState({ level_1: 7.0, level_2: 6.0, level_3: 8.0 })] and the body of
    [GET /api/v1/config/thresholds]. *)
Record Thresholds := mkThresholds {
  level_1 : Q;
  level_2 : Q;
  level_3 : Q
}.

(** [res.data.data] of the two résumé endpoints, with the fields the page
    reads. *)
Module Evaluation.
Record t := mk {
  score : Q;
  max_score : Q;
  passed : bool;
  threshold : Q;
  evaluation : string;
  github_url : option string
}.
End Evaluation.

(** [res.data.data] of [POST /api/v1/github/analyze]. *)
Module GithubAnalysis.
Record t := mk {
  github_url : string;
  score : Q;
  max_score : Q;
  passed : bool;
  threshold : Q;
  analysis : string
}.
End GithubAnalysis.

(** [res.data.data] of [POST /api/v1/verdict/generate]. *)
Module FinalVerdict.
Record t := mk {
  decision : string;
  confidence : string;
  composite_score : Q;
  level_1_score : Q;
  level_2_score : option Q;
  level_3_score : option Q;
  verdict_text : string
}.
End FinalVerdict.

(** The body of a fulfilled response.  The page types every response as
    [any]; the embedding gives each endpoint the body the page reads from
    it.  [BodyNone] is a fulfilled response without data: [res.data.data]
    is [undefined] or [null]. *)
Inductive Body :=
| BodyNone
| BodyRubric (rubric : string)
| BodyEvaluation (data : Evaluation.t)
| BodyGithub (data : GithubAnalysis.t)
| BodyVerdict (data : FinalVerdict.t)
| BodyThresholds (data : Thresholds)
| BodyBlob.

(** What an awaited axios call settles to: fulfilled with a body, or
    rejected, in which case the [catch] block reads
    [err.response?.data?.detail]. *)
Inductive Response :=
| Resolved (body : Body)
| Rejected (detail : option string).

(** JavaScript truthiness of a string: [!s] holds exactly for the empty
    string. *)
Definition truthy (s : string) : bool :=
  match s with
  | EmptyString => false
  | String _ _ => true
  end.

(** [detail || fallback] as the [catch] blocks write it. *)
Definition detail_or (detail : option string) (fallback : string) : string :=
  match detail with
  | Some d => if truthy d then d else fallback
  | None => fallback
  end.

Definition isSome {A : Type} (o : option A) : bool :=
  match o with
  | Some _ => true
  | None => false
  end.

(** ** The state of the component *)

Record Home := mkHome {
  step : nat;
  jdText : string;
  rubric : string;
  resumeText : string;
  evaluation : option Evaluation.t;
  githubUrl : string;
  githubAnalysis : option GithubAnalysis.t;
  finalVerdict : option FinalVerdict.t;
  loading : bool;
  error : string;
  showSettings : bool;
  thresholds : Thresholds;
  darkMode : bool
}.

(** The values passed to the [useState] calls at the top of [Home]. *)
Definition initial : Home :=
  {| step := 1;
     jdText := "";
     rubric := "";
     resumeText := "";
     evaluation := None;
     githubUrl := "";
     githubAnalysis := None;
     finalVerdict := None;
     loading := false;
     error := "";
     showSettings := false;
     thresholds := {| level_1 := 7.0; level_2 := 6.0; level_3 := 8.0 |};
     darkMode := false |}.

(** The state setters.  Every call in the page passes a value, never an
    updater function, so a setter overwrites one cell of the current
    state. *)
Definition setStep (v : nat) (h : Home) : Home :=
  mkHome v (jdText h) (rubric h) (resumeText h) (evaluation h) (githubUrl h)
         (githubAnalysis h) (finalVerdict h) (loading h) (error h)
         (showSettings h) (thresholds h) (darkMode h).

Definition setJdText (v : string) (h : Home) : Home :=
  mkHome (step h) v (rubric h) (resumeText h) (evaluation h) (githubUrl h)
         (githubAnalysis h) (finalVerdict h) (loading h) (error h)
         (showSettings h) (thresholds h) (darkMode h).

Definition setRubric (v : string) (h : Home) : Home :=
  mkHome (step h) (jdText h) v (resumeText h) (evaluation h) (githubUrl h)
         (githubAnalysis h) (finalVerdict h) (loading h) (error h)
         (showSettings h) (thresholds h) (darkMode h).

Definition setResumeText (v : string) (h : Home) : Home :=
  mkHome (step h) (jdText h) (rubric h) v (evaluation h) (githubUrl h)
         (githubAnalysis h) (finalVerdict h) (loading h) (error h)
         (showSettings h) (thresholds h) (darkMode h).

Definition setEvaluation (v : option Evaluation.t) (h : Home) : Home :=
  mkHome (step h) (jdText h) (rubric h) (resumeText h) v (githubUrl h)
         (githubAnalysis h) (finalVerdict h) (loading h) (error h)
         (showSettings h) (thresholds h) (darkMode h).

Definition setGithubUrl (v : string) (h : Home) : Home :=
  mkHome (step h) (jdText h) (rubric h) (resumeText h) (evaluation h) v
         (githubAnalysis h) (finalVerdict h) (loading h) (error h)
         (showSettings h) (thresholds h) (darkMode h).

Definition setGithubAnalysis (v : option GithubAnalysis.t) (h : Home) : Home :=
  mkHome (step h) (jdText h) (rubric h) (resumeText h) (evaluation h)
         (githubUrl h) v (finalVerdict h) (loading h) (error h)
         (showSettings h) (thresholds h) (darkMode h).

Definition setFinalVerdict (v : option FinalVerdict.t) (h : Home) : Home :=
  mkHome (step h) (jdText h) (rubric h) (resumeText h) (evaluation h)
         (githubUrl h) (githubAnalysis h) v (loading h) (error h)
         (showSettings h) (thresholds h) (darkMode h).

Definition setLoading (v : bool) (h : Home) : Home :=
  mkHome (step h) (jdText h) (rubric h) (resumeText h) (evaluation h)
         (githubUrl h) (githubAnalysis h) (finalVerdict h) v (error h)
         (showSettings h) (thresholds h) (darkMode h).

Definition setError (v : string) (h : Home) : Home :=
  mkHome (step h) (jdText h) (rubric h) (resumeText h) (evaluation h)
         (githubUrl h) (githubAnalysis h) (finalVerdict h) (loading h) v
         (showSettings h) (thresholds h) (darkMode h).

Definition setShowSettings (v : bool) (h : Home) : Home :=
  mkHome (step h) (jdText h) (rubric h) (resumeText h) (evaluation h)
         (githubUrl h) (githubAnalysis h) (finalVerdict h) (loading h)
         (error h) v (thresholds h) (darkMode h).

Definition setThresholds (v : Thresholds) (h : Home) : Home :=
  mkHome (step h) (jdText h) (rubric h) (resumeText h) (evaluation h)
         (githubUrl h) (githubAnalysis h) (finalVerdict h) (loading h)
         (error h) (showSettings h) v (darkMode h).

Definition setDarkMode (v : bool) (h : Home) : Home :=
  mkHome (step h) (jdText h) (rubric h) (resumeText h) (evaluation h)
         (githubUrl h) (githubAnalysis h) (finalVerdict h) (loading h)
         (error h) (showSettings h) (thresholds h) v.

(** ** Requests in flight

    A [Task] is an [async] function of the page suspended at one of its
    [await]s, named after the function and the request it waits for; it
    carries what the function sent. *)
Inductive Task :=
| UploadJD_upload (jd_text : string)
| UploadJD_generate
| UploadJDFile_upload (file : File)
| UploadJDFile_generate
| EvaluateResume_post (resume_text : string)
| EvaluateResumeFile_post (file : File)
| AnalyzeGitHub_post (github_url : string)
| GenerateFinalVerdict_post
| DownloadPDF_get
| FetchThresholds_get
| UpdateThresholds_post (params : Thresholds).

(** The tasks of the six functions that bracket their work with
    [setLoading(true)] ... [setLoading(false)]: the requests that move the
    session from one stage to the next. *)
Definition stage_request (t : Task) : bool :=
  match t with
  | DownloadPDF_get | FetchThresholds_get | UpdateThresholds_post _ => false
  | _ => true
  end.

(** The synchronous prefix of every stage function:
    [setLoading(true); setError('')]. *)
Definition enter (h : Home) : Home := setError "" (setLoading true h).

(** The [catch] block followed by the trailing [setLoading(false)]. *)
Definition fail (detail : option string) (fallback : string) (h : Home) : Home :=
  setLoading false (setError (detail_or detail fallback) h).

Definition uploadJD (h : Home) : Home * Task :=
  (enter h, UploadJD_upload (jdText h)).

Definition uploadJDFile (file : File) (h : Home) : Home * Task :=
  (enter h, UploadJDFile_upload file).

Definition evaluateResume (h : Home) : Home * Task :=
  (enter h, EvaluateResume_post (resumeText h)).

Definition evaluateResumeFile (file : File) (h : Home) : Home * Task :=
  (enter h, EvaluateResumeFile_post file).

Definition analyzeGitHub (h : Home) : Home * Task :=
  (enter h, AnalyzeGitHub_post (githubUrl h)).

Definition generateFinalVerdict (h : Home) : Home * Task :=
  (enter h, GenerateFinalVerdict_post).

(** [downloadPDF], [fetchThresholds] and [updateThresholds] touch no state
    before their [await]. *)
Definition downloadPDF (h : Home) : Home * Task := (h, DownloadPDF_get).

Definition fetchThresholds (h : Home) : Home * Task := (h, FetchThresholds_get).

Definition updateThresholds (h : Home) : Home * Task :=
  (h, UpdateThresholds_post (thresholds h)).

(** The code after a successful [await] of the rubric request, shared by
    [uploadJD] and [uploadJDFile]:
    [setRubric(rubricRes.data.data.rubric); setStep(2)], then the trailing
    [setLoading(false)]. *)
Definition rubricGenerated (r : string) (h : Home) : Home :=
  setLoading false (setStep 2 (setRubric r h)).

(** The code after the successful [await] in [evaluateResume] and
    [evaluateResumeFile]: the artifact is stored, the GitHub field is
    filled when the résumé named one, and the page goes to step 3 whatever
    the artifact says. *)
Definition resumeEvaluated (data : Evaluation.t) (h : Home) : Home :=
  let h1 := setEvaluation (Some data) h in
  let h2 := match Evaluation.github_url data with
            | Some u => if truthy u then setGithubUrl u h1 else h1
            | None => h1
            end in
  setLoading false (setStep 3 h2).

Definition githubAnalyzed (data : GithubAnalysis.t) (h : Home) : Home :=
  setLoading false (setStep 4 (setGithubAnalysis (Some data) h)).

Definition verdictGenerated (data : FinalVerdict.t) (h : Home) : Home :=
  setLoading false (setStep 5 (setFinalVerdict (Some data) h)).

(** What the stage functions do with a fulfilled answer that has no data.
    [evaluateResume] and [evaluateResumeFile] run
    [setEvaluation(res.data.data)] first, storing [undefined], and then
    read [res.data.data.github_url], which throws a [TypeError] into the
    [catch] block; the error has no [response], so the fallback message is
    stored.  [analyzeGitHub] and [generateFinalVerdict] read no field of the
    data: they store [undefined] and go on to the next step.  In the state
    a cell that holds [undefined] is [None], as one that holds [null]:
    the page only tests these cells for truthiness. *)
Definition resumeUnreadable (fallback : string) (h : Home) : Home :=
  fail None fallback (setEvaluation None h).

Definition githubUnanswered (h : Home) : Home :=
  setLoading false (setStep 4 (setGithubAnalysis None h)).

Definition verdictUnanswered (h : Home) : Home :=
  setLoading false (setStep 5 (setFinalVerdict None h)).

(** [resume t r h] runs the continuation of the suspended function [t] on
    the response [r] in the state [h] the page has when the response
    arrives.  It gives the new state and, when the function reaches another
    [await], the task that replaces [t].

    A fulfilled answer either carries the data of its endpoint or carries
    none.  Without data, [rubricRes.data.data.rubric] throws before
    [setRubric], so the rubric functions end in their [catch] block with
    the fallback message; the other stage functions behave as described
    above.  The export request is sent with [responseType: 'blob'], so the
    body of a rejection is a [Blob] without a [detail] field and the
    [catch] block of [downloadPDF] always stores its fallback.  A fulfilled
    answer whose data has the shape of another endpoint has no transition,
    and neither has a threshold answer without data, after which the
    settings dialog cannot be rendered. *)
Definition resume (t : Task) (r : Response) (h : Home)
  : option (Home * option Task) :=
  match t, r with
  | UploadJD_upload _, Resolved _ => Some (h, Some UploadJD_generate)
  | UploadJD_upload _, Rejected d =>
      Some (fail d "Failed to process JD" h, None)
  | UploadJD_generate, Resolved (BodyRubric r) => Some (rubricGenerated r h, None)
  | UploadJD_generate, Resolved BodyNone =>
      Some (fail None "Failed to process JD" h, None)
  | UploadJD_generate, Rejected d =>
      Some (fail d "Failed to process JD" h, None)
  | UploadJDFile_upload _, Resolved _ => Some (h, Some UploadJDFile_generate)
  | UploadJDFile_upload _, Rejected d =>
      Some (fail d "Failed to process JD file" h, None)
  | UploadJDFile_generate, Resolved (BodyRubric r) =>
      Some (rubricGenerated r h, None)
  | UploadJDFile_generate, Resolved BodyNone =>
      Some (fail None "Failed to process JD file" h, None)
  | UploadJDFile_generate, Rejected d =>
      Some (fail d "Failed to process JD file" h, None)
  | EvaluateResume_post _, Resolved (BodyEvaluation data) =>
      Some (resumeEvaluated data h, None)
  | EvaluateResume_post _, Resolved BodyNone =>
      Some (resumeUnreadable "Failed to evaluate resume" h, None)
  | EvaluateResume_post _, Rejected d =>
      Some (fail d "Failed to evaluate resume" h, None)
  | EvaluateResumeFile_post _, Resolved (BodyEvaluation data) =>
      Some (resumeEvaluated data h, None)
  | EvaluateResumeFile_post _, Resolved BodyNone =>
      Some (resumeUnreadable "Failed to evaluate resume file" h, None)
  | EvaluateResumeFile_post _, Rejected d =>
      Some (fail d "Failed to evaluate resume file" h, None)
  | AnalyzeGitHub_post _, Resolved (BodyGithub data) =>
      Some (githubAnalyzed data h, None)
  | AnalyzeGitHub_post _, Resolved BodyNone => Some (githubUnanswered h, None)
  | AnalyzeGitHub_post _, Rejected d =>
      Some (fail d "Failed to analyze GitHub" h, None)
  | GenerateFinalVerdict_post, Resolved (BodyVerdict data) =>
      Some (verdictGenerated data h, None)
  | GenerateFinalVerdict_post, Resolved BodyNone =>
      Some (verdictUnanswered h, None)
  | GenerateFinalVerdict_post, Rejected d =>
      Some (fail d "Failed to generate final verdict" h, None)
  | DownloadPDF_get, Resolved _ => Some (h, None)
  | DownloadPDF_get, Rejected _ =>
      Some (setError "Failed to download PDF" h, None)
  | FetchThresholds_get, Resolved (BodyThresholds data) =>
      Some (setThresholds data h, None)
  | FetchThresholds_get, Rejected _ => Some (h, None)
  | UpdateThresholds_post _, Resolved _ => Some (setShowSettings false h, None)
  | UpdateThresholds_post _, Rejected _ => Some (h, None)
  | _, _ => None
  end.

(** ** The controls of the page *)

(** The five blocks of the [return] and the conditions that render them. *)
Definition view1 (h : Home) : bool := (step h =? 1).
Definition view2 (h : Home) : bool := (step h =? 2).
Definition view3 (h : Home) : bool := (step h =? 3) && isSome (evaluation h).
Definition view4 (h : Home) : bool := (step h =? 4) && isSome (evaluation h).
Definition view5 (h : Home) : bool := (step h =? 5) && isSome (finalVerdict h).

(** The two inline handlers that appear twice, in the results block and in
    the verdict block, with the same body. *)
Definition evaluateAnotherCandidate (h : Home) : Home :=
  setFinalVerdict None
    (setGithubAnalysis None
       (setEvaluation None (setGithubUrl "" (setResumeText "" (setStep 2 h))))).

Definition startOver (h : Home) : Home :=
  setFinalVerdict None
    (setGithubAnalysis None
       (setEvaluation None
          (setGithubUrl ""
             (setResumeText "" (setRubric "" (setJdText "" (setStep 1 h))))))).

Inductive Level := Level1 | Level2 | Level3.

Definition editThreshold (l : Level) (v : Q) (t : Thresholds) : Thresholds :=
  match l with
  | Level1 => mkThresholds v (level_2 t) (level_3 t)
  | Level2 => mkThresholds (level_1 t) v (level_3 t)
  | Level3 => mkThresholds (level_1 t) (level_2 t) v
  end.

(** What can happen to the page: a control is used, or a pending request
    settles.  The two "Upload File" buttons open a file dialog; the
    event carries the file chosen there, [None] when the dialog is
    dismissed. *)
Inductive Event :=
| ToggleDarkMode
| OpenSettings
| CloseSettings
| EditThreshold (l : Level) (v : Q)
| SaveChanges
| TypeJdText (v : string)
| ClickProcessText
| ChooseJdFile (file : option File)
| TypeResumeText (v : string)
| ClickBackToJD
| ClickEvaluateText
| ChooseResumeFile (file : option File)
| TypeGithubUrl (v : string)
| ClickBack
| ClickSkipLevel2
| ClickAnalyzeGitHub
| ClickDownloadPDF
| ClickGenerateFinalVerdict
| ClickViewFinalVerdict
| ClickEvaluateAnotherCandidate
| ClickStartOver
| ClickBackToResults
| Settle (i : nat) (r : Response).

Definition guard {A : Type} (b : bool) (x : A) : option A :=
  if b then Some x else None.

Definition spawn (p : Home * Task) : Home * option Task :=
  (fst p, Some (snd p)).

Definition quiet (h : Home) : Home * option Task := (h, None).

(** [click h e] is the handler of the control [e] in the state [h]: [None]
    when the control is not rendered or is disabled, otherwise the new state
    and the request the handler sends, if any. *)
Definition click (h : Home) (e : Event) : option (Home * option Task) :=
  match e with
  | ToggleDarkMode => Some (quiet (setDarkMode (negb (darkMode h)) h))
  | OpenSettings =>
      Some (spawn (let p := fetchThresholds h in (setShowSettings true (fst p), snd p)))
  | CloseSettings => guard (showSettings h) (quiet (setShowSettings false h))
  | EditThreshold l v =>
      guard (showSettings h)
            (quiet (setThresholds (editThreshold l v (thresholds h)) h))
  | SaveChanges => guard (showSettings h) (spawn (updateThresholds h))
  | TypeJdText v => guard (view1 h) (quiet (setJdText v h))
  | ClickProcessText =>
      guard (view1 h && truthy (jdText h) && negb (loading h)) (spawn (uploadJD h))
  | ChooseJdFile file =>
      guard (view1 h && negb (loading h))
            (match file with
             | Some f => spawn (uploadJDFile f h)
             | None => quiet h
             end)
  | TypeResumeText v => guard (view2 h) (quiet (setResumeText v h))
  | ClickBackToJD => guard (view2 h) (quiet (setStep 1 h))
  | ClickEvaluateText =>
      guard (view2 h && truthy (resumeText h) && negb (loading h))
            (spawn (evaluateResume h))
  | ChooseResumeFile file =>
      guard (view2 h && negb (loading h))
            (match file with
             | Some f => spawn (evaluateResumeFile f h)
             | None => quiet h
             end)
  | TypeGithubUrl v => guard (view3 h) (quiet (setGithubUrl v h))
  | ClickBack => guard (view3 h) (quiet (setStep 2 h))
  | ClickSkipLevel2 => guard (view3 h) (quiet (setStep 4 h))
  | ClickAnalyzeGitHub =>
      guard (view3 h && truthy (githubUrl h) && negb (loading h))
            (spawn (analyzeGitHub h))
  | ClickDownloadPDF => guard (view4 h || view5 h) (spawn (downloadPDF h))
  | ClickGenerateFinalVerdict =>
      guard (view4 h && isSome (githubAnalysis h) && negb (isSome (finalVerdict h))
             && negb (loading h))
            (spawn (generateFinalVerdict h))
  | ClickViewFinalVerdict =>
      guard (view4 h && isSome (finalVerdict h)) (quiet (setStep 5 h))
  | ClickEvaluateAnotherCandidate =>
      guard (view4 h || view5 h) (quiet (evaluateAnotherCandidate h))
  | ClickStartOver => guard (view4 h || view5 h) (quiet (startOver h))
  | ClickBackToResults => guard (view5 h) (quiet (setStep 4 h))
  | Settle _ _ => None
  end.

(** ** The page together with its requests in flight *)

Record World := mkWorld {
  ui : Home;
  pending : list Task
}.

Definition boot : World := mkWorld initial [].

Definition opt_list {A : Type} (o : option A) : list A :=
  match o with
  | Some x => [x]
  | None => []
  end.

(** The task at position [i] is replaced by its continuation, or leaves the
    list when its function has run to the end. *)
Definition settle_at (i : nat) (next : option Task) (l : list Task) : list Task :=
  firstn i l ++ opt_list next ++ skipn (S i) l.

(** One step of the page.  A request just sent goes to the front of the
    list, so position [0] is the latest one. *)
Definition react (w : World) (e : Event) : option World :=
  match e with
  | Settle i r =>
      match nth_error (pending w) i with
      | Some t =>
          match resume t r (ui w) with
          | Some (h, next) => Some (mkWorld h (settle_at i next (pending w)))
          | None => None
          end
      | None => None
      end
  | _ =>
      match click (ui w) e with
      | Some (h, sent) => Some (mkWorld h (opt_list sent ++ pending w))
      | None => None
      end
  end.

Fixpoint run (w : World) (tr : list Event) : option World :=
  match tr with
  | [] => Some w
  | e :: tr' =>
      match react w e with
      | Some w' => run w' tr'
      | None => None
      end
  end.

(** The worlds the page can be in. *)
Inductive reachable : World -> Prop :=
| reachable_boot : reachable boot
| reachable_step w e w' : reachable w -> react w e = Some w' -> reachable w'.

(** The session as the specification sees it: the stage cursor and the
    stored artifacts. *)
Record Session := mkSession {
  s_stage : nat;
  s_rubric : string;
  s_evaluation : option Evaluation.t;
  s_profile : option GithubAnalysis.t;
  s_verdict : option FinalVerdict.t
}.

Definition session (h : Home) : Session :=
  mkSession (step h) (rubric h) (evaluation h) (githubAnalysis h) (finalVerdict h).

(** ** Vocabulary of the properties *)

(** The stage requests that are in flight. *)
Definition in_flight (w : World) : list Task := filter stage_request (pending w).

(** The controls whose handler is one of the six stage functions. *)
Definition starts_request (e : Event) : bool :=
  match e with
  | ClickProcessText | ChooseJdFile (Some _)
  | ClickEvaluateText | ChooseResumeFile (Some _)
  | ClickAnalyzeGitHub | ClickGenerateFinalVerdict => true
  | _ => false
  end.

(** The controls whose handler calls [setStep] itself, without a request;
    none of them carries a [disabled] attribute. *)
Definition navigation (e : Event) : bool :=
  match e with
  | ClickBackToJD | ClickBack | ClickSkipLevel2 | ClickViewFinalVerdict
  | ClickEvaluateAnotherCandidate | ClickStartOver | ClickBackToResults => true
  | _ => false
  end.

(** Among them, those that take the cursor to an earlier step. *)
Definition backward (e : Event) : bool :=
  match e with
  | ClickBackToJD | ClickBack | ClickEvaluateAnotherCandidate
  | ClickStartOver | ClickBackToResults => true
  | _ => false
  end.

(** The page used by someone who leaves the navigation controls alone while
    the spinner shows. *)
Definition patient_react (w : World) (e : Event) : option World :=
  if navigation e && loading (ui w) then None else react w e.

Fixpoint patient_run (w : World) (tr : list Event) : option World :=
  match tr with
  | [] => Some w
  | e :: tr' =>
      match patient_react w e with
      | Some w' => patient_run w' tr'
      | None => None
      end
  end.

(** The backend answers a rubric request with a non-empty rubric. *)
Definition rubric_answer_ok (e : Event) : bool :=
  match e with
  | Settle _ (Resolved (BodyRubric r)) => truthy r
  | _ => true
  end.

(** The step at which the function behind a stage request was started. *)
Definition home_step (t : Task) : nat :=
  match t with
  | UploadJD_upload _ | UploadJD_generate
  | UploadJDFile_upload _ | UploadJDFile_generate => 1
  | EvaluateResume_post _ | EvaluateResumeFile_post _ => 2
  | AnalyzeGitHub_post _ => 3
  | _ => 4
  end.

(** The requests of [evaluateResume] and [evaluateResumeFile]. *)
Definition resume_request (t : Task) : bool :=
  match t with
  | EvaluateResume_post _ | EvaluateResumeFile_post _ => true
  | _ => false
  end.

(** The six stage operations, by the control that starts them. *)
Inductive Operation :=
| SubmitJdText
| SubmitJdFile (file : File)
| EvaluateResumeText
| EvaluateResumeUpload (file : File)
| AnalyzeProfile
| GenerateVerdict.

Definition start_of (op : Operation) : Event :=
  match op with
  | SubmitJdText => ClickProcessText
  | SubmitJdFile f => ChooseJdFile (Some f)
  | EvaluateResumeText => ClickEvaluateText
  | EvaluateResumeUpload f => ChooseResumeFile (Some f)
  | AnalyzeProfile => ClickAnalyzeGitHub
  | GenerateVerdict => ClickGenerateFinalVerdict
  end.

(** The operations that upload a job description and then ask for the
    rubric: two requests, one after the other. *)
Definition submits_jd (op : Operation) : bool :=
  match op with
  | SubmitJdText | SubmitJdFile _ => true
  | _ => false
  end.


(** The operations that evaluate a résumé. *)
Definition evaluates_resume (op : Operation) : bool :=
  match op with
  | EvaluateResumeText | EvaluateResumeUpload _ => true
  | _ => false
  end.

(** The ways an operation fails, that is, ends in its [catch] block: its
    request is rejected; for a job description, the upload succeeds and
    the rubric request is rejected or is answered without data; for a
    résumé, the request is answered without data.  (An answer without data
    is no failure for [analyzeGitHub] and [generateFinalVerdict], which
    read no field of it.)  The request of the operation is the latest one,
    at position [0]. *)
Inductive failing_run : Operation -> list Event -> Prop :=
| fails_at_once op d :
    failing_run op [start_of op; Settle 0 (Rejected d)]
| fails_at_rubric op b d :
    submits_jd op = true ->
    failing_run op [start_of op; Settle 0 (Resolved b); Settle 0 (Rejected d)]
| fails_without_rubric op b :
    submits_jd op = true ->
    failing_run op [start_of op; Settle 0 (Resolved b);
                    Settle 0 (Resolved BodyNone)]
| fails_without_evaluation op :
    evaluates_resume op = true ->
    failing_run op [start_of op; Settle 0 (Resolved BodyNone)].

(** The events that write the threshold form: an edit of a field, and the
    answer of the backend to [fetchThresholds]. *)
Definition writes_thresholds (e : Event) : bool :=
  match e with
  | EditThreshold _ _ => true
  | Settle _ (Resolved (BodyThresholds _)) => true
  | _ => false
  end.

(** Every cell of the component that the candidate does not own. *)
Definition kept_across_candidates (h h' : Home) : Prop :=
  jdText h' = jdText h /\ rubric h' = rubric h /\
  loading h' = loading h /\ error h' = error h /\
  showSettings h' = showSettings h /\ thresholds h' = thresholds h /\
  darkMode h' = darkMode h.

(** The page is serialized when [loading] tells exactly whether a stage
    request is in flight, and there is never more than one. *)
Definition serialized (w : World) : Prop :=
  length (in_flight w) = if loading (ui w) then 1 else 0.

(** What the cursor may do in one event: stay, go one step forward, or go
    back through a control made for that. *)
Definition moves_in_order (e : Event) (s s' : nat) : Prop :=
  s' = s \/ s' = S s \/ (s' < s /\ backward e = true).

(** The four back controls of the steps on which a stage request can be
    loading.  (Back to Results belongs to step 5, where none is.) *)
Definition retreats (e : Event) : bool :=
  match e with
  | ClickBackToJD | ClickBack | ClickEvaluateAnotherCandidate
  | ClickStartOver => true
  | _ => false
  end.

(** The page used by someone who does not go back while the spinner
    shows: these four controls are left alone while a stage request is
    loading. *)
Definition steady_react (w : World) (e : Event) : option World :=
  if retreats e && loading (ui w) then None else react w e.

Fixpoint steady_run (w : World) (tr : list Event) : option World :=
  match tr with
  | [] => Some w
  | e :: tr' =>
      match steady_react w e with
      | Some w' => steady_run w' tr'
      | None => None
      end
  end.

(** The page used by someone who does not press Start Over while the
    spinner shows. *)
Definition starts_over (e : Event) : bool :=
  match e with
  | ClickStartOver => true
  | _ => false
  end.

Definition careful_react (w : World) (e : Event) : option World :=
  if starts_over e && loading (ui w) then None else react w e.

Fixpoint careful_run (w : World) (tr : list Event) : option World :=
  match tr with
  | [] => Some w
  | e :: tr' =>
      match careful_react w e with
      | Some w' => careful_run w' tr'
      | None => None
      end
  end.

(** A stored verdict means that the page is on step 4 or 5 and that
    nothing is loading. *)
Definition verdict_settled (h : Home) : Prop :=
  finalVerdict h <> None -> 4 <= step h /\ loading h = false.

(** The request in flight, if any, was sent from the step the page is on,
    or it is the GitHub request and the page has gone on to step 4. *)
Definition near_home (w : World) : Prop :=
  forall t, In t (pending w) -> stage_request t = true ->
            step (ui w) = home_step t \/
            (home_step t = 3 /\ step (ui w) = 4).

(** From step 2 on the rubric is not empty, and while it is empty only
    job-description requests wait. *)
Definition rubric_kept (w : World) : Prop :=
  (2 <= step (ui w) -> truthy (rubric (ui w)) = true) /\
  (truthy (rubric (ui w)) = false ->
   forall t, In t (pending w) -> stage_request t = true -> home_step t = 1).

(** ** Sample data for the worked examples *)

Module Sample.

Definition weak_resume : Evaluation.t :=
  Evaluation.mk 5.0 10 false 7.0 "Level 1 narrative" None.

Definition strong_resume : Evaluation.t :=
  Evaluation.mk 9.0 10 true 7.0 "Level 1 narrative"
                (Some "https://github.com/octocat").

Definition profile : GithubAnalysis.t :=
  GithubAnalysis.mk "octocat" 8.0 10 true 6.0 "Level 2 narrative".

Definition verdict : FinalVerdict.t :=
  FinalVerdict.mk "NO_HIRE" "MEDIUM" 6.5 5.0 (Some 8.0%Q) None "Synthesis".

(** Paste a job description, process it, both requests succeed. *)
Definition to_resume_step : list Event :=
  [ TypeJdText "Senior Backend Engineer, 5+ years, Go, Postgres";
    ClickProcessText;
    Settle 0 (Resolved BodyNone);
    Settle 0 (Resolved (BodyRubric "# Rubric")) ].

(** ... then paste a résumé that scores below the threshold. *)
Definition to_github_step : list Event :=
  (to_resume_step ++
   [ TypeResumeText "Jane Doe, 3 years of Go";
     ClickEvaluateText;
     Settle 0 (Resolved (BodyEvaluation weak_resume)) ])%list.

(** ... then skip the GitHub analysis. *)
Definition skipped : list Event := (to_github_step ++ [ClickSkipLevel2])%list.

(** ... or type a handle and analyse the profile instead. *)
Definition analyzed : list Event :=
  (to_github_step ++
   [ TypeGithubUrl "octocat";
     ClickAnalyzeGitHub;
     Settle 0 (Resolved (BodyGithub profile)) ])%list.

(** ... then ask for the verdict and press Start Over before the answer
    comes; the answer opens the verdict view of an emptied session, from
    which the next candidate is evaluated. *)
Definition overtaken : list Event :=
  (analyzed ++
   [ ClickGenerateFinalVerdict;
     ClickStartOver;
     Settle 0 (Resolved (BodyVerdict verdict));
     ClickEvaluateAnotherCandidate;
     TypeResumeText "John Roe, 8 years of Go";
     ClickEvaluateText;
     Settle 0 (Resolved (BodyEvaluation strong_resume)) ])%list.

Definition world_after (tr : list Event) : World :=
  match run boot tr with
  | Some w => w
  | None => boot
  end.

Definition at_resume_step : World := Eval vm_compute in world_after to_resume_step.
Definition at_github_step : World := Eval vm_compute in world_after to_github_step.
Definition at_skipped : World := Eval vm_compute in world_after skipped.
Definition at_analyzed : World := Eval vm_compute in world_after analyzed.
Definition at_overtaken : World := Eval vm_compute in world_after overtaken.

End Sample.

(** ** The rest of the render *)

(** The progress bar: the five numbered circles with their labels. *)
Definition progress : list (nat * string) :=
  [(1, "JD"); (2, "Resume"); (3, "GitHub"); (4, "Results"); (5, "Verdict")].

(** The circle [num] is highlighted when [step >= s.num]. *)
Definition circle_on (h : Home) (num : nat) : bool := num <=? step h.

(** The connector after the entry at index [idx] exists when [idx < 4], and
    is highlighted when [step > s.num]. *)
Definition connector_shown (idx : nat) : bool := idx <? 4.

Definition connector_on (h : Home) (num : nat) : bool := num <? step h.

Definition circles_on (h : Home) : list (nat * string) :=
  filter (fun s => circle_on h (fst s)) progress.

Definition connectors_on (h : Home) : list (nat * string) :=
  filter (fun s => connector_on h (fst s)) (firstn 4 progress).

(** The red banner [{error && ...}]: it is part of the blocks of steps 1, 2
    and 3 only. *)
Definition error_shown (h : Home) : bool :=
  (view1 h || view2 h || view3 h) && truthy (error h).

(** No block of the five is rendered: below the progress bar the page is
    empty. *)
Definition blank (h : Home) : bool :=
  negb (view1 h || view2 h || view3 h || view4 h || view5 h).

(** The controls outside the five blocks: the two header buttons and the
    settings dialog. *)
Definition header_control (e : Event) : bool :=
  match e with
  | ToggleDarkMode | OpenSettings | CloseSettings
  | EditThreshold _ _ | SaveChanges => true
  | _ => false
  end.

(** The text fields. *)
Definition typing (e : Event) : bool :=
  match e with
  | TypeJdText _ | TypeResumeText _ | TypeGithubUrl _ => true
  | _ => false
  end.

(** The requests of [uploadJD] and [uploadJDFile]. *)
Definition jd_request (t : Task) : bool :=
  match t with
  | UploadJD_upload _ | UploadJD_generate
  | UploadJDFile_upload _ | UploadJDFile_generate => true
  | _ => false
  end.

(** The requests of [fetchThresholds] and [updateThresholds]. *)
Definition thresholds_request (t : Task) : bool :=
  match t with
  | FetchThresholds_get | UpdateThresholds_post _ => true
  | _ => false
  end.

(** A request that carries a text of the page carries a non-empty one. *)
Definition carries_text (t : Task) : bool :=
  match t with
  | UploadJD_upload x | EvaluateResume_post x | AnalyzeGitHub_post x => truthy x
  | _ => true
  end.

(** The functions whose [catch] block finds the [detail] of a rejection:
    all that write [error] except [downloadPDF], whose request asks for a
    [Blob]. *)
Definition reads_detail (t : Task) : bool :=
  match t with
  | DownloadPDF_get | FetchThresholds_get | UpdateThresholds_post _ => false
  | _ => true
  end.

(** The fallback message of the [catch] block of each function that has
    one writing [error]. *)
Definition fallback_of (t : Task) : option string :=
  match t with
  | UploadJD_upload _ | UploadJD_generate => Some "Failed to process JD"
  | UploadJDFile_upload _ | UploadJDFile_generate => Some "Failed to process JD file"
  | EvaluateResume_post _ => Some "Failed to evaluate resume"
  | EvaluateResumeFile_post _ => Some "Failed to evaluate resume file"
  | AnalyzeGitHub_post _ => Some "Failed to analyze GitHub"
  | GenerateFinalVerdict_post => Some "Failed to generate final verdict"
  | DownloadPDF_get => Some "Failed to download PDF"
  | FetchThresholds_get | UpdateThresholds_post _ => None
  end.

(** The cells that belong to the evaluation, as opposed to the dialog and
    the theme. *)
Definition same_evaluation_cells (h h' : Home) : Prop :=
  session h' = session h /\
  jdText h' = jdText h /\ resumeText h' = resumeText h /\
  githubUrl h' = githubUrl h /\
  loading h' = loading h /\ error h' = error h.

(** How many verdict requests are waiting. *)
Definition verdict_requests (l : list Task) : nat :=
  length (filter (fun t => match t with
                           | GenerateFinalVerdict_post => true
                           | _ => false
                           end) l).

(** The request in flight, if any, was sent from the step the page is on. *)
Definition at_home (w : World) : Prop :=
  forall t, In t (pending w) -> stage_request t = true ->
            step (ui w) = home_step t.

(** The artifacts fit the step: from step 3 on the résumé artifact is
    there, a profile analysis is there only from step 4 on, and a verdict
    only together with a profile analysis.  (Step 5 may lack a verdict:
    a verdict answer without data leads there.) *)
Definition fits (h : Home) : Prop :=
  1 <= step h <= 5 /\
  (3 <= step h -> evaluation h <> None) /\
  (githubAnalysis h <> None -> 4 <= step h) /\
  (finalVerdict h <> None -> githubAnalysis h <> None).

Definition tidy (w : World) : Prop :=
  serialized w /\ at_home w /\ fits (ui w) /\
  (In GenerateFinalVerdict_post (pending w) -> githubAnalysis (ui w) <> None).

(** The page is blank and no stage request is waiting that could bring a
    block back. *)
Definition stuck (w : World) : Prop :=
  blank (ui w) = true /\
  forall t, In t (pending w) -> stage_request t = false.

(** A job-description request waits only while the page is on step 1. *)
Definition jd_anchored (w : World) : Prop :=
  forall t, In t (pending w) -> jd_request t = true -> step (ui w) = 1.

(** A run in which Start Over overtakes the answer of the GitHub request:
    the analysis is requested, the user skips ahead and starts over, and
    then the answer arrives. *)
Definition late_analysis : list Event :=
  (Sample.to_github_step ++
   [ TypeGithubUrl "octocat";
     ClickAnalyzeGitHub;
     ClickSkipLevel2;
     ClickStartOver;
     Settle 0 (Resolved (BodyGithub Sample.profile)) ])%list.

Definition at_late_analysis : World :=
  Eval vm_compute in Sample.world_after late_analysis.

(** * Properties *)

(** ** Small facts used throughout *)

Lemma guard_some {A : Type} (b : bool) (x y : A) :
  guard b x = Some y -> b = true /\ x = y.
Proof. destruct b; simpl; intros H; [split; congruence | discriminate]. Qed.

Lemma truthy_true (s : string) : truthy s = true <-> s <> "".
Proof. destruct s; simpl; split; congruence. Qed.

Lemma reachable_run w tr w' :
  reachable w -> run w tr = Some w' -> reachable w'.
Proof.
  revert w; induction tr as [|e tr IH]; intros w Hw Hrun; simpl in Hrun.
  - now inversion Hrun; subst.
  - destruct (react w e) as [w1|] eqn:He; [|discriminate].
    eapply IH; [eapply reachable_step; eassumption | exact Hrun].
Qed.

Lemma patient_run_run w tr w' :
  patient_run w tr = Some w' -> run w tr = Some w'.
Proof.
  revert w; induction tr as [|e tr IH]; intros w; simpl; [easy|].
  unfold patient_react.
  destruct (navigation e && loading (ui w)); [discriminate|].
  destruct (react w e); [apply IH | discriminate].
Qed.

(** The sample runs do run. *)
Lemma run_to_resume_step : run boot Sample.to_resume_step = Some Sample.at_resume_step.
Proof. vm_compute; reflexivity. Qed.

Lemma run_to_github_step : run boot Sample.to_github_step = Some Sample.at_github_step.
Proof. vm_compute; reflexivity. Qed.

Lemma run_skipped : run boot Sample.skipped = Some Sample.at_skipped.
Proof. vm_compute; reflexivity. Qed.

Lemma run_analyzed : run boot Sample.analyzed = Some Sample.at_analyzed.
Proof. vm_compute; reflexivity. Qed.

Lemma run_overtaken : run boot Sample.overtaken = Some Sample.at_overtaken.
Proof. vm_compute; reflexivity. Qed.

(** ** Taking one step apart *)

Lemma react_settle w i r w' :
  react w (Settle i r) = Some w' ->
  exists t next,
    nth_error (pending w) i = Some t /\
    resume t r (ui w) = Some (ui w', next) /\
    pending w' = settle_at i next (pending w).
Proof.
  unfold react; intros H.
  destruct (nth_error (pending w) i) as [t|]; [|discriminate].
  destruct (resume t r (ui w)) as [[h next]|] eqn:Hr; [|discriminate].
  inversion H; subst; simpl; eauto.
Qed.

Lemma react_click w e w' :
  (forall i r, e <> Settle i r) ->
  react w e = Some w' ->
  exists sent,
    click (ui w) e = Some (ui w', sent) /\
    pending w' = (opt_list sent ++ pending w)%list.
Proof.
  intros Hns H.
  destruct e; try (exfalso; eapply Hns; reflexivity);
    unfold react in H;
    match type of H with
    | match ?c with _ => _ end = _ => destruct c as [[h sent]|] eqn:Hc
    end; try discriminate; inversion H; subst; simpl; eauto.
Qed.

(** Either a control was used or a request settled. *)
Lemma react_cases w e w' :
  react w e = Some w' ->
  (exists sent, click (ui w) e = Some (ui w', sent) /\
                pending w' = (opt_list sent ++ pending w)%list) \/
  (exists i r t next, e = Settle i r /\
                nth_error (pending w) i = Some t /\
                resume t r (ui w) = Some (ui w', next) /\
                pending w' = settle_at i next (pending w)).
Proof.
  intros H.
  destruct e; try (left; apply react_click; [intros; discriminate | exact H]).
  right. apply react_settle in H. destruct H as (t & next & H1 & H2 & H3).
  eauto 8.
Qed.

(** Opens a hypothesis [click h e = Some (h', sent)] for a known control
    into its guard and the equations of the handler. *)
Ltac open_click H :=
  simpl in H;
  try discriminate H;
  try (apply guard_some in H; destruct H as [?G H]);
  repeat match type of H with
         | context [match ?f with Some _ => _ | None => _ end] =>
             destruct f; simpl in H
         end;
  inversion H; subst; clear H.

(** Opens a hypothesis [resume t r h = Some (h', next)] by cases on the
    task and the response. *)
Ltac open_resume H :=
  match type of H with
  | resume ?t ?r _ = _ =>
      destruct t; destruct r as [[]|]; simpl in H; try discriminate H;
      inversion H; subst; clear H
  end.

(** Splits on whether the résumé artifact carried a GitHub address that
    [resumeEvaluated] copies into the input field. *)
Ltac split_github_url :=
  unfold resumeEvaluated in *;
  match goal with
  | |- context [Evaluation.github_url ?d] =>
      let u := fresh "u" in
      destruct (Evaluation.github_url d) as [u|]; [destruct (truthy u)|]
  end; simpl in *.

(** Breaks the guards of the controls down to equations on the cells. *)
Ltac views :=
  repeat match goal with
         | G : _ && _ = true |- _ => apply andb_prop in G; destruct G
         | G : _ || _ = true |- _ => apply orb_prop in G; destruct G
         | G : negb _ = true |- _ => apply negb_true_iff in G
         | G : view1 _ = true |- _ => unfold view1 in G
         | G : view2 _ = true |- _ => unfold view2 in G
         | G : view3 _ = true |- _ => unfold view3 in G
         | G : view4 _ = true |- _ => unfold view4 in G
         | G : view5 _ = true |- _ => unfold view5 in G
         | G : (_ =? _) = true |- _ => apply Nat.eqb_eq in G
         end.

(** ** Thresholds *)

Lemma click_keeps_thresholds h e h' sent :
  writes_thresholds e = false ->
  click h e = Some (h', sent) ->
  thresholds h' = thresholds h.
Proof.
  intros Hw H; destruct e; simpl in Hw; try discriminate Hw;
    open_click H; reflexivity.
Qed.

Lemma resume_keeps_thresholds t r h h' next :
  (forall data, r <> Resolved (BodyThresholds data)) ->
  resume t r h = Some (h', next) ->
  thresholds h' = thresholds h.
Proof.
  intros Hw H; open_resume H; try reflexivity;
    try (exfalso; eapply Hw; reflexivity); split_github_url; reflexivity.
Qed.

Lemma react_keeps_thresholds w e w' :
  writes_thresholds e = false ->
  react w e = Some w' ->
  thresholds (ui w') = thresholds (ui w).
Proof.
  intros Hw H. destruct (react_cases _ _ _ H) as [(sent & Hc & _)|(i & r & t & next & -> & _ & Hr & _)].
  - eapply click_keeps_thresholds; eassumption.
  - eapply resume_keeps_thresholds; [|eassumption].
    intros data ->. simpl in Hw. discriminate.
Qed.

(** C7.  The threshold form starts at level_1 = 7.0, level_2 = 6.0 and
    level_3 = 8.0, each between 0 and 10, and shows these values in every
    state the page reaches before an event writes the form (an edit of a
    field, or the thresholds the backend returns when the settings are
    opened). *)
Theorem initial_thresholds tr w :
  forallb (fun e => negb (writes_thresholds e)) tr = true ->
  run boot tr = Some w ->
  thresholds (ui boot) = mkThresholds 7.0 6.0 8.0 /\
  thresholds (ui w) = mkThresholds 7.0 6.0 8.0 /\
  (0 <= level_1 (thresholds (ui w)) <= 10)%Q /\
  (0 <= level_2 (thresholds (ui w)) <= 10)%Q /\
  (0 <= level_3 (thresholds (ui w)) <= 10)%Q.
Proof.
  intros Hq Hrun.
  assert (Hk : thresholds (ui w) = thresholds (ui boot)).
  { revert Hq Hrun. generalize boot as w0.
    induction tr as [|e tr IH]; intros w0 Hq Hrun; simpl in *.
    - now inversion Hrun.
    - apply andb_prop in Hq; destruct Hq as [He Hq].
      destruct (react w0 e) as [w1|] eqn:Hre; [|discriminate].
      rewrite (IH w1 Hq Hrun).
      apply react_keeps_thresholds with (e := e); [|exact Hre].
      now destruct (writes_thresholds e). }
  rewrite Hk; simpl.
  repeat split; discriminate.
Qed.

Lemma initial_thresholds_witness :
  thresholds (ui Sample.at_analyzed) = mkThresholds 7.0 6.0 8.0.
Proof.
  apply (initial_thresholds Sample.analyzed Sample.at_analyzed).
  - vm_compute; reflexivity.
  - vm_compute; reflexivity.
Defined.

(** ** Start Over and Evaluate Another Candidate *)

(** C8.  Wherever the Start Over control is rendered (the results view and
    the verdict view), using it leaves the job description, the rubric, the
    résumé text and the GitHub identifier empty, the three artifacts null,
    and the cursor at step 1, as in the initial state. *)
Theorem start_over_clears_session w :
  view4 (ui w) || view5 (ui w) = true ->
  exists w',
    react w ClickStartOver = Some w' /\
    step (ui w') = 1 /\
    jdText (ui w') = "" /\
    rubric (ui w') = "" /\
    resumeText (ui w') = "" /\
    evaluation (ui w') = None /\
    githubAnalysis (ui w') = None /\
    githubUrl (ui w') = "" /\
    finalVerdict (ui w') = None /\
    session (ui w') = session initial.
Proof.
  intros Hv. unfold react, click. rewrite Hv. simpl.
  eexists; split; [reflexivity|]. simpl. repeat split.
Qed.

Lemma start_over_clears_session_witness :
  exists w',
    react Sample.at_analyzed ClickStartOver = Some w' /\
    step (ui w') = 1 /\
    jdText (ui w') = "" /\
    rubric (ui w') = "" /\
    resumeText (ui w') = "" /\
    evaluation (ui w') = None /\
    githubAnalysis (ui w') = None /\
    githubUrl (ui w') = "" /\
    finalVerdict (ui w') = None /\
    session (ui w') = session initial.
Proof.
  apply (start_over_clears_session Sample.at_analyzed).
  vm_compute; reflexivity.
Defined.

(** C10.  Wherever the Evaluate Another Candidate control is rendered,
    using it keeps the job description and the rubric (and every other
    cell the candidate does not own) as they were, empties the résumé text
    and the GitHub identifier, nulls the résumé evaluation, the profile
    analysis and the verdict, and puts the cursor at step 2, the résumé
    input. *)
Theorem evaluate_another_candidate_frame w :
  view4 (ui w) || view5 (ui w) = true ->
  exists w',
    react w ClickEvaluateAnotherCandidate = Some w' /\
    kept_across_candidates (ui w) (ui w') /\
    pending w' = pending w /\
    step (ui w') = 2 /\
    resumeText (ui w') = "" /\
    githubUrl (ui w') = "" /\
    evaluation (ui w') = None /\
    githubAnalysis (ui w') = None /\
    finalVerdict (ui w') = None.
Proof.
  intros Hv. unfold react, click. rewrite Hv. simpl.
  eexists; split; [reflexivity|]. simpl.
  unfold kept_across_candidates; simpl. repeat split.
Qed.

Lemma evaluate_another_candidate_frame_witness :
  exists w',
    react Sample.at_analyzed ClickEvaluateAnotherCandidate = Some w' /\
    kept_across_candidates (ui Sample.at_analyzed) (ui w') /\
    pending w' = pending Sample.at_analyzed /\
    step (ui w') = 2 /\
    resumeText (ui w') = "" /\
    githubUrl (ui w') = "" /\
    evaluation (ui w') = None /\
    githubAnalysis (ui w') = None /\
    finalVerdict (ui w') = None.
Proof.
  apply (evaluate_another_candidate_frame Sample.at_analyzed).
  vm_compute; reflexivity.
Defined.

(** ** Résumé evaluation *)

Lemma resumeEvaluated_cursor data h :
  step (resumeEvaluated data h) = 3 /\
  evaluation (resumeEvaluated data h) = Some data /\
  loading (resumeEvaluated data h) = false /\
  rubric (resumeEvaluated data h) = rubric h /\
  githubAnalysis (resumeEvaluated data h) = githubAnalysis h /\
  finalVerdict (resumeEvaluated data h) = finalVerdict h.
Proof. split_github_url; repeat split. Qed.

(** C4.  When a résumé request (pasted text or uploaded file) is answered
    with an artifact, the page stores the artifact and goes to step 3, the
    GitHub step, and renders it: the artifact's [passed] flag is not
    consulted, so the same holds for a résumé below its threshold. *)
Theorem resume_evaluation_always_advances w i t data :
  nth_error (pending w) i = Some t ->
  resume_request t = true ->
  exists w',
    react w (Settle i (Resolved (BodyEvaluation data))) = Some w' /\
    step (ui w') = 3 /\
    evaluation (ui w') = Some data /\
    view3 (ui w') = true /\
    loading (ui w') = false.
Proof.
  intros Hn Ht. unfold react. rewrite Hn.
  destruct t; simpl in Ht; try discriminate Ht; cbn [resume];
    (eexists; split; [reflexivity|]);
    destruct (resumeEvaluated_cursor data (ui w)) as (Hs & He & Hl & _);
    unfold view3; cbn [ui]; rewrite Hs, He, Hl; repeat split.
Qed.

Lemma resume_evaluation_always_advances_witness :
  exists w',
    react (mkWorld (enter (ui Sample.at_resume_step)) [EvaluateResume_post "cv"])
          (Settle 0 (Resolved (BodyEvaluation Sample.weak_resume))) = Some w' /\
    step (ui w') = 3 /\
    evaluation (ui w') = Some Sample.weak_resume /\
    view3 (ui w') = true /\
    loading (ui w') = false.
Proof.
  apply (resume_evaluation_always_advances _ 0 (EvaluateResume_post "cv")
           Sample.weak_resume); reflexivity.
Defined.

(** ** Verdict generation *)

(** C1, as stated, fails.  After a résumé evaluation followed by Skip
    Level 2 the page is on the results view with the résumé artifact and
    no profile analysis, nothing is loading, and the Generate Final Verdict
    control is not there; no other control or response sends the verdict
    request either. *)
Lemma skip_path_offers_no_verdict :
  run boot Sample.skipped = Some Sample.at_skipped /\
  view4 (ui Sample.at_skipped) = true /\
  evaluation (ui Sample.at_skipped) = Some Sample.weak_resume /\
  githubAnalysis (ui Sample.at_skipped) = None /\
  loading (ui Sample.at_skipped) = false /\
  react Sample.at_skipped ClickGenerateFinalVerdict = None /\
  forall e w',
    react Sample.at_skipped e = Some w' ->
    ~ In GenerateFinalVerdict_post (pending w').
Proof.
  repeat (split; [vm_compute; reflexivity|]).
  intros e w' H Hin.
  destruct (react_cases _ _ _ H) as [(sent & Hc & Hp)|(i & r & t & next & _ & Hn & _)].
  - rewrite Hp in Hin. simpl in Hin. rewrite app_nil_r in Hin.
    destruct e; open_click Hc; simpl in Hin;
      repeat (destruct Hin as [Hin|Hin]; try discriminate Hin); try contradiction.
  - simpl in Hn. destruct i; discriminate Hn.
Qed.

(** C1, amended.  The Generate Final Verdict control can be used exactly
    on the results view (step 4 with the résumé artifact) when the profile
    analysis is present, no verdict is stored and nothing is loading; in
    particular it cannot be used while the profile analysis is absent.
    Using it sends the verdict request, and a verdict returned for that
    request is stored and shown on step 5. *)
Theorem verdict_needs_profile_analysis w :
  isSome (react w ClickGenerateFinalVerdict) =
    view4 (ui w) && isSome (githubAnalysis (ui w))
    && negb (isSome (finalVerdict (ui w))) && negb (loading (ui w)) /\
  (githubAnalysis (ui w) = None -> react w ClickGenerateFinalVerdict = None) /\
  (forall w', react w ClickGenerateFinalVerdict = Some w' ->
     pending w' = GenerateFinalVerdict_post :: pending w /\
     session (ui w') = session (ui w)) /\
  (forall i data,
     nth_error (pending w) i = Some GenerateFinalVerdict_post ->
     exists w',
       react w (Settle i (Resolved (BodyVerdict data))) = Some w' /\
       finalVerdict (ui w') = Some data /\
       step (ui w') = 5 /\
       view5 (ui w') = true).
Proof.
  split; [|split; [|split]].
  - unfold react, click, guard.
    destruct (view4 (ui w) && isSome (githubAnalysis (ui w))
              && negb (isSome (finalVerdict (ui w))) && negb (loading (ui w)));
      reflexivity.
  - intros Hg. unfold react, click, guard. rewrite Hg; simpl.
    rewrite andb_false_r; reflexivity.
  - intros w' H. apply react_click in H; [|intros; discriminate].
    destruct H as (sent & Hc & Hp). open_click Hc. split; [exact Hp | reflexivity].
  - intros i data Hn. unfold react. rewrite Hn. simpl.
    eexists; split; [reflexivity|]. repeat split.
Qed.

Lemma verdict_needs_profile_analysis_witness :
  react Sample.at_skipped ClickGenerateFinalVerdict = None /\
  exists w',
    react (mkWorld (enter (ui Sample.at_analyzed)) [GenerateFinalVerdict_post])
          (Settle 0 (Resolved (BodyVerdict Sample.verdict))) = Some w' /\
    finalVerdict (ui w') = Some Sample.verdict /\
    step (ui w') = 5 /\
    view5 (ui w') = true.
Proof.
  split.
  - apply (verdict_needs_profile_analysis Sample.at_skipped). reflexivity.
  - apply (verdict_needs_profile_analysis
             (mkWorld (enter (ui Sample.at_analyzed)) [GenerateFinalVerdict_post])).
    reflexivity.
Defined.

(** ** Report export *)

(** C6, as stated, fails.  Right after a résumé evaluation the page is on
    step 3 with the résumé artifact stored, and no download control is
    rendered there: the click has no transition, and nothing else sends
    the export request. *)
Lemma no_export_on_github_step :
  run boot Sample.to_github_step = Some Sample.at_github_step /\
  step (ui Sample.at_github_step) = 3 /\
  evaluation (ui Sample.at_github_step) = Some Sample.weak_resume /\
  react Sample.at_github_step ClickDownloadPDF = None /\
  forall e w',
    react Sample.at_github_step e = Some w' ->
    ~ In DownloadPDF_get (pending w').
Proof.
  repeat (split; [vm_compute; reflexivity|]).
  intros e w' H Hin.
  destruct (react_cases _ _ _ H) as [(sent & Hc & Hp)|(i & r & t & next & _ & Hn & _)].
  - rewrite Hp in Hin. simpl in Hin. rewrite app_nil_r in Hin.
    destruct e; open_click Hc; simpl in Hin;
      repeat (destruct Hin as [Hin|Hin]; try discriminate Hin); try contradiction.
  - simpl in Hn. destruct i; discriminate Hn.
Qed.

(** C6, amended.  The export control can be used exactly on the results
    view (step 4 with the résumé artifact) and on the verdict view (step 5
    with the verdict).  Using it changes no cell of the component and only
    sends the export request; when that request settles, the stage cursor
    and every artifact are as before (a rejection writes the error message
    and nothing else). *)
Theorem export_is_read_only w :
  isSome (react w ClickDownloadPDF) = view4 (ui w) || view5 (ui w) /\
  (forall w', react w ClickDownloadPDF = Some w' ->
     ui w' = ui w /\ pending w' = DownloadPDF_get :: pending w) /\
  (forall i r w',
     nth_error (pending w) i = Some DownloadPDF_get ->
     react w (Settle i r) = Some w' ->
     session (ui w') = session (ui w) /\
     jdText (ui w') = jdText (ui w) /\
     resumeText (ui w') = resumeText (ui w) /\
     githubUrl (ui w') = githubUrl (ui w) /\
     loading (ui w') = loading (ui w)).
Proof.
  split; [|split].
  - unfold react, click, guard.
    destruct (view4 (ui w) || view5 (ui w)); reflexivity.
  - intros w' H. apply react_click in H; [|intros; discriminate].
    destruct H as (sent & Hc & Hp). open_click Hc. split; [reflexivity | exact Hp].
  - intros i r w' Hi H.
    apply react_settle in H. destruct H as (t & next & Hn & Hr & _).
    rewrite Hi in Hn; inversion Hn; subst t.
    destruct r; simpl in Hr; inversion Hr; repeat split.
Qed.

Lemma export_is_read_only_witness :
  ui (Sample.world_after (Sample.skipped ++ [ClickDownloadPDF])%list)
    = ui Sample.at_skipped /\
  session (ui (Sample.world_after
                 (Sample.skipped ++ [ClickDownloadPDF; Settle 0 (Rejected None)])%list))
    = session (ui Sample.at_skipped).
Proof.
  split.
  - apply (export_is_read_only Sample.at_skipped). vm_compute; reflexivity.
  - destruct (export_is_read_only
                (Sample.world_after (Sample.skipped ++ [ClickDownloadPDF])%list))
      as (_ & _ & Hsettle).
    apply (Hsettle 0 (Rejected None)).
    + vm_compute; reflexivity.
    + vm_compute; reflexivity.
Defined.

(** ** Failing operations *)


(** A rejected request writes [error], and [loading] when it is a stage
    request; nothing else. *)
Lemma rejection_keeps_session w i d w' :
  react w (Settle i (Rejected d)) = Some w' ->
  session (ui w') = session (ui w) /\
  jdText (ui w') = jdText (ui w) /\
  resumeText (ui w') = resumeText (ui w) /\
  githubUrl (ui w') = githubUrl (ui w).
Proof.
  intros H. apply react_settle in H. destruct H as (t & next & _ & Hr & _).
  destruct t; simpl in Hr; inversion Hr; repeat split.
Qed.


(** C2, as stated, fails on one path.  The page is back on step 2 with the
    résumé artifact of the first evaluation stored; Evaluate Text is used
    again and the request is answered without data.  [evaluateResume]
    stores [undefined] over the artifact and only then fails on
    [res.data.data.github_url]: the operation ends in its [catch] block,
    with its message and [loading] off, on the same step, and the stored
    résumé artifact is gone. *)
Lemma resume_answer_without_data_clears_artifact :
  failing_run EvaluateResumeText
    [ClickEvaluateText; Settle 0 (Resolved BodyNone)] /\
  run boot (Sample.to_github_step ++ [ClickBack])%list
    = Some (Sample.world_after (Sample.to_github_step ++ [ClickBack])%list) /\
  step (ui (Sample.world_after (Sample.to_github_step ++ [ClickBack])%list)) = 2 /\
  evaluation (ui (Sample.world_after (Sample.to_github_step ++ [ClickBack])%list))
    = Some Sample.weak_resume /\
  exists w',
    run (Sample.world_after (Sample.to_github_step ++ [ClickBack])%list)
        [ClickEvaluateText; Settle 0 (Resolved BodyNone)] = Some w' /\
    step (ui w') = 2 /\
    loading (ui w') = false /\
    error (ui w') = "Failed to evaluate resume" /\
    evaluation (ui w') = None.
Proof.
  split; [exact (fails_without_evaluation EvaluateResumeText eq_refl)|].
  split; [vm_compute; reflexivity|].
  split; [vm_compute; reflexivity|].
  split; [vm_compute; reflexivity|].
  eexists. split; [vm_compute; reflexivity|].
  repeat split.
Qed.



(** ** A failed profile analysis *)

(** C5, as stated, fails.  Skip Level 2 is not disabled while the GitHub
    request is loading.  Used then, it takes the page to the results, and
    the rejection arrives there: the page is on step 4, not on the GitHub
    step, and it offers neither the identifier field nor Analyze GitHub nor
    Skip Level 2, nor does it show the message. *)
Lemma failure_after_skip_offers_no_retry :
  run boot (Sample.to_github_step ++
            [TypeGithubUrl "octokat"; ClickAnalyzeGitHub; ClickSkipLevel2])%list
    = Some (Sample.world_after
              (Sample.to_github_step ++
               [TypeGithubUrl "octokat"; ClickAnalyzeGitHub; ClickSkipLevel2])%list) /\
  pending (Sample.world_after
             (Sample.to_github_step ++
              [TypeGithubUrl "octokat"; ClickAnalyzeGitHub; ClickSkipLevel2])%list)
    = [AnalyzeGitHub_post "octokat"] /\
  exists w',
    react (Sample.world_after
             (Sample.to_github_step ++
              [TypeGithubUrl "octokat"; ClickAnalyzeGitHub; ClickSkipLevel2])%list)
          (Settle 0 (Rejected (Some "GitHub username 'octokat' does not exist")))
      = Some w' /\
    step (ui w') = 4 /\
    view3 (ui w') = false /\
    react w' ClickAnalyzeGitHub = None /\
    react w' ClickSkipLevel2 = None /\
    react w' (TypeGithubUrl "octocat") = None.
Proof.
  split; [vm_compute; reflexivity|].
  split; [vm_compute; reflexivity|].
  eexists. split; [vm_compute; reflexivity|].
  repeat split.
Qed.

(** C5, amended.  A rejected GitHub request, in whatever state it arrives,
    leaves the stage cursor, the rubric, the artifacts and the three text
    fields as they are, stores its message and turns [loading] off.  When
    the page is on the GitHub step at that moment it stays there, Skip
    Level 2 goes on to the results with the résumé artifact, and typing
    any non-empty identifier enables Analyze GitHub again, which sends a
    new request for that identifier.  When the page has left the GitHub
    step in the meantime, the identifier field, Analyze GitHub and Skip
    Level 2 are not offered. *)
Theorem failed_profile_analysis_can_retry_or_skip w i u d :
  nth_error (pending w) i = Some (AnalyzeGitHub_post u) ->
  exists w',
    react w (Settle i (Rejected d)) = Some w' /\
    session (ui w') = session (ui w) /\
    jdText (ui w') = jdText (ui w) /\
    resumeText (ui w') = resumeText (ui w) /\
    githubUrl (ui w') = githubUrl (ui w) /\
    error (ui w') = detail_or d "Failed to analyze GitHub" /\
    loading (ui w') = false /\
    (view3 (ui w) = true ->
       step (ui w') = 3 /\
       (exists w2,
          react w' ClickSkipLevel2 = Some w2 /\
          step (ui w2) = 4 /\
          view4 (ui w2) = true /\
          evaluation (ui w2) = evaluation (ui w) /\
          githubAnalysis (ui w2) = githubAnalysis (ui w)) /\
       (forall u',
          u' <> "" ->
          exists w2,
            run w' [TypeGithubUrl u'; ClickAnalyzeGitHub] = Some w2 /\
            pending w2 = AnalyzeGitHub_post u' :: pending w' /\
            loading (ui w2) = true /\
            session (ui w2) = session (ui w))) /\
    (view3 (ui w) = false ->
       react w' ClickSkipLevel2 = None /\
       react w' ClickAnalyzeGitHub = None /\
       forall u', react w' (TypeGithubUrl u') = None).
Proof.
  intros Hn.
  unfold react at 1. rewrite Hn. cbn [resume].
  eexists; split; [reflexivity|]. cbn [ui pending].
  do 6 (split; [reflexivity|]).
  split.
  - intros Hv. assert (Hv' := Hv). unfold view3 in Hv'.
    apply andb_prop in Hv'. destruct Hv' as [Hs He].
    apply Nat.eqb_eq in Hs.
    split; [exact Hs|]. split.
    + unfold react, click, view3, view4; simpl. rewrite Hs, He; simpl.
      eexists; split; [reflexivity|]. simpl. rewrite He. repeat split.
    + intros u' Hu. apply truthy_true in Hu.
      unfold run, react, click, view3; simpl. rewrite Hs, He; simpl.
      rewrite Hs, He, Hu; simpl.
      eexists; split; [reflexivity|]. repeat split.
  - intros Hv.
    assert (Hv' : view3 (fail d "Failed to analyze GitHub" (ui w)) = false)
      by exact Hv.
    unfold react, click, guard; cbn [ui]. rewrite Hv'. repeat split.
Qed.

Lemma failed_profile_analysis_can_retry_or_skip_witness :
  exists w',
    react (mkWorld (enter (setGithubUrl "octokat" (ui Sample.at_github_step)))
                   [AnalyzeGitHub_post "octokat"])
          (Settle 0 (Rejected (Some "GitHub username 'octokat' does not exist")))
      = Some w' /\
    step (ui w') = 3 /\
    error (ui w') = "GitHub username 'octokat' does not exist" /\
    (exists w2, react w' ClickSkipLevel2 = Some w2 /\ step (ui w2) = 4) /\
    (exists w2, run w' [TypeGithubUrl "octocat"; ClickAnalyzeGitHub] = Some w2 /\
                pending w2 = [AnalyzeGitHub_post "octocat"]).
Proof.
  destruct (failed_profile_analysis_can_retry_or_skip
              (mkWorld (enter (setGithubUrl "octokat" (ui Sample.at_github_step)))
                       [AnalyzeGitHub_post "octokat"])
              0 "octokat" (Some "GitHub username 'octokat' does not exist")
              eq_refl)
    as (w' & Hre & _ & _ & _ & _ & Herr & _ & Hon & _).
  destruct (Hon eq_refl) as (Hs & (w2 & Hskip & Hs2 & _) & Hretry).
  exists w'. split; [exact Hre|]. split; [exact Hs|].
  split; [exact Herr|].
  split; [exists w2; split; assumption|].
  destruct (Hretry "octocat") as (w3 & Hrun & Hp & _); [discriminate|].
  exists w3. split; [exact Hrun|].
  rewrite Hp. vm_compute in Hre. inversion Hre. reflexivity.
Defined.

(** ** One stage request at a time *)

Lemma settle_at_split (i : nat) (t : Task) (next : option Task) (l : list Task) :
  nth_error l i = Some t ->
  exists l1 l2,
    l = (l1 ++ t :: l2)%list /\
    settle_at i next l = (l1 ++ opt_list next ++ l2)%list.
Proof.
  intros Hn. destruct (nth_error_split l i Hn) as (l1 & l2 & Hl & Hlen).
  exists l1, l2. split; [exact Hl|].
  unfold settle_at. subst l i.
  rewrite firstn_app, firstn_all, Nat.sub_diag, firstn_O, app_nil_r.
  replace (S (length l1)) with (length l1 + 1) by lia.
  rewrite skipn_app, skipn_all2 by lia.
  replace (length l1 + 1 - length l1) with 1 by lia.
  reflexivity.
Qed.

Lemma in_flight_settle (i : nat) (t : Task) (next : option Task) (l : list Task) :
  nth_error l i = Some t ->
  length (filter stage_request (settle_at i next l))
  + (if stage_request t then 1 else 0)
  = length (filter stage_request l)
    + length (filter stage_request (opt_list next)).
Proof.
  intros Hn. destruct (settle_at_split i t next l Hn) as (l1 & l2 & -> & ->).
  rewrite !filter_app, !length_app. simpl.
  destruct (stage_request t); simpl; lia.
Qed.

(** A control that sends a stage request needs [loading] off and turns it
    on; every other control leaves [loading] alone. *)
Lemma click_loading h e h' sent :
  click h e = Some (h', sent) ->
  match sent with
  | Some t =>
      if stage_request t
      then loading h = false /\ loading h' = true /\ starts_request e = true
      else loading h' = loading h
  | None => loading h' = loading h
  end.
Proof.
  intros H; destruct e; open_click H; simpl; try reflexivity;
    repeat match goal with
           | G : _ && _ = true |- _ => apply andb_prop in G; destruct G
           | G : negb _ = true |- _ => apply negb_true_iff in G
           end; auto.
Qed.

(** The continuation of a stage function either waits for its next request
    with [loading] untouched, or ends with [loading] off; the other three
    functions never write [loading]. *)
Lemma resume_loading t r h h' next :
  resume t r h = Some (h', next) ->
  if stage_request t
  then match next with
       | Some t' => stage_request t' = true /\ loading h' = loading h
       | None => loading h' = false
       end
  else next = None /\ loading h' = loading h.
Proof.
  intros H; open_resume H; simpl; auto; split_github_url; reflexivity.
Qed.

Lemma serialized_step w e w' :
  serialized w -> react w e = Some w' -> serialized w'.
Proof.
  unfold serialized, in_flight. intros Hw H.
  destruct (react_cases _ _ _ H)
    as [(sent & Hc & Hp)|(i & r & t & next & _ & Hn & Hr & Hp)].
  - apply click_loading in Hc. rewrite Hp, filter_app, length_app.
    destruct sent as [t|]; simpl.
    + destruct (stage_request t); simpl.
      * destruct Hc as (Hl & Hl' & _). rewrite Hl in Hw. rewrite Hl', Hw. reflexivity.
      * rewrite Hc. exact Hw.
    + rewrite Hc. exact Hw.
  - apply resume_loading in Hr.
    pose proof (in_flight_settle i t next (pending w) Hn) as Hcount.
    rewrite Hp. destruct (stage_request t).
    + destruct next as [t'|]; simpl in Hcount.
      * destruct Hr as [Ht' Hl]. rewrite Ht' in Hcount. simpl in Hcount.
        rewrite Hl. lia.
      * rewrite Hr. destruct (loading (ui w)); lia.
    + destruct Hr as [-> Hl]. simpl in Hcount. rewrite Hl. lia.
Qed.

Lemma reachable_serialized w : reachable w -> serialized w.
Proof.
  induction 1 as [|w e w' _ IH H].
  - reflexivity.
  - eapply serialized_step; eassumption.
Qed.

(** C9.  In every state the page can reach there is at most one stage
    request in flight, and one is in flight exactly when [loading] is set.
    While [loading] is set, none of the six controls that send a stage
    request (Process Text, the two file uploads, Evaluate Text, Analyze
    GitHub, Generate Final Verdict) has a transition, and whatever else
    happens, no second stage request is added.  The controls that only
    call [setStep] (Back, Skip Level 2, Start Over and the like) send no
    request; they are not gated by [loading] and are no part of this
    property. *)
Theorem stage_requests_are_serialized w :
  reachable w ->
  length (in_flight w) <= 1 /\
  (in_flight w <> [] <-> loading (ui w) = true) /\
  (loading (ui w) = true ->
   forall e, starts_request e = true -> react w e = None) /\
  (in_flight w <> [] ->
   forall e w', react w e = Some w' -> length (in_flight w') <= 1 /\
                                      length (in_flight w') <= length (in_flight w)).
Proof.
  intros Hreach. pose proof (reachable_serialized w Hreach) as Hser.
  assert (Hiff : in_flight w <> [] <-> loading (ui w) = true).
  { unfold serialized in Hser. destruct (loading (ui w)), (in_flight w);
      simpl in Hser; split; intros; congruence. }
  split; [|split; [exact Hiff|split]].
  - unfold serialized in Hser. destruct (loading (ui w)); lia.
  - intros Hl e He.
    destruct e as [| | | | | | |[f|]| | | |[f|]| | | | | | | | | | |];
      simpl in He; try discriminate He;
      unfold react, click, guard; rewrite Hl, ?andb_false_r; reflexivity.
  - intros Hin e w' H.
    pose proof (serialized_step w e w' Hser H) as Hser'.
    apply Hiff in Hin. unfold serialized in Hser, Hser'. rewrite Hin in Hser.
    destruct (loading (ui w')); lia.
Qed.

Lemma stage_requests_are_serialized_witness :
  in_flight (Sample.world_after
               (Sample.to_github_step ++
                [TypeGithubUrl "octocat"; ClickAnalyzeGitHub])%list)
    = [AnalyzeGitHub_post "octocat"] /\
  react (Sample.world_after
           (Sample.to_github_step ++
            [TypeGithubUrl "octocat"; ClickAnalyzeGitHub])%list)
        ClickAnalyzeGitHub = None.
Proof.
  split; [vm_compute; reflexivity|].
  apply (stage_requests_are_serialized
           (Sample.world_after
              (Sample.to_github_step ++
               [TypeGithubUrl "octocat"; ClickAnalyzeGitHub])%list)).
  - apply (reachable_run boot
             (Sample.to_github_step ++
              [TypeGithubUrl "octocat"; ClickAnalyzeGitHub])%list).
    + exact reachable_boot.
    + vm_compute; reflexivity.
  - vm_compute; reflexivity.
  - reflexivity.
Defined.

(** ** The order of the steps *)

Ltac pick_move :=
  unfold moves_in_order;
  first [ left; simpl; lia
        | right; left; simpl; lia
        | right; right; split; [simpl; lia | reflexivity] ].

Lemma click_order h e h' sent :
  click h e = Some (h', sent) ->
  moves_in_order e (step h) (step h') /\
  (2 <= step h' -> rubric h' = rubric h /\ 2 <= step h) /\
  (forall t, sent = Some t -> stage_request t = true -> step h = home_step t).
Proof.
  intros H; destruct e; open_click H; views;
    (split; [pick_move|]);
    (split; [simpl; intros; split; [reflexivity || lia | lia]|]);
    intros t Ht Hs; inversion Ht; subst; simpl in *;
      try discriminate; assumption.
Qed.

Lemma resume_order t r h h' next :
  resume t r h = Some (h', next) ->
  (stage_request t = false -> step h' = step h /\ rubric h' = rubric h) /\
  (stage_request t = true -> step h = home_step t ->
     (step h' = step h \/ step h' = S (step h)) /\
     (forall t', next = Some t' -> home_step t' = home_step t /\ step h' = step h) /\
     (2 <= step h' ->
        (rubric h' = rubric h /\ 2 <= step h) \/
        r = Resolved (BodyRubric (rubric h')))).
Proof.
  intros H; open_resume H; (split; [simpl; intros; try discriminate; auto|]);
    intros _ Hs; simpl in Hs;
    try (destruct (resumeEvaluated_cursor data h) as (E1 & _ & _ & E2 & _);
         rewrite E1, E2);
    simpl; rewrite ?Hs;
    (split; [auto|]);
    (split; [intros t' Ht'; inversion Ht'; auto|]);
    intros; try lia; auto.
Qed.

Lemma in_settle_at (i : nat) (t0 : Task) (next : option Task) (l : list Task) (t : Task) :
  nth_error l i = Some t0 ->
  In t (settle_at i next l) -> In t l \/ next = Some t.
Proof.
  intros Hn Hin. destruct (settle_at_split i t0 next l Hn) as (l1 & l2 & -> & E).
  rewrite E in Hin. rewrite !in_app_iff in Hin. rewrite in_app_iff. simpl.
  destruct Hin as [Hin|[Hin|Hin]]; auto.
  destruct next as [t'|]; simpl in Hin; [|contradiction].
  destruct Hin as [->|[]]. auto.
Qed.

Lemma serialized_idle w t :
  serialized w -> loading (ui w) = false -> In t (pending w) ->
  stage_request t = false.
Proof.
  unfold serialized, in_flight. intros Hser Hl Hin. rewrite Hl in Hser.
  destruct (stage_request t) eqn:Ht; [|reflexivity].
  assert (Hf : In t (filter stage_request (pending w)))
    by (apply filter_In; split; assumption).
  destruct (filter stage_request (pending w)); [contradiction | discriminate].
Qed.

Lemma steady_run_run w tr w' :
  steady_run w tr = Some w' -> run w tr = Some w'.
Proof.
  revert w; induction tr as [|e tr IH]; intros w; simpl; [easy|].
  unfold steady_react.
  destruct (retreats e && loading (ui w)); [discriminate|].
  destruct (react w e); [apply IH | discriminate].
Qed.

Lemma careful_run_run w tr w' :
  careful_run w tr = Some w' -> run w tr = Some w'.
Proof.
  revert w; induction tr as [|e tr IH]; intros w; simpl; [easy|].
  unfold careful_react.
  destruct (starts_over e && loading (ui w)); [discriminate|].
  destruct (react w e); [apply IH | discriminate].
Qed.

Lemma pending_stage_means_loading w t :
  serialized w -> In t (pending w) -> stage_request t = true ->
  loading (ui w) = true.
Proof.
  intros Hser Hin Ht. destruct (loading (ui w)) eqn:Hl; [reflexivity|].
  rewrite (serialized_idle w t Hser Hl Hin) in Ht. discriminate.
Qed.

(** *** A stored verdict *)

Lemma click_verdict_settled h e h' sent :
  click h e = Some (h', sent) -> verdict_settled h -> verdict_settled h'.
Proof.
  unfold verdict_settled. intros H K.
  destruct e; open_click H; views; simpl in *; intros Hv;
    try (exfalso; apply Hv; reflexivity);
    try (destruct (finalVerdict h); [discriminate | exfalso; apply Hv; reflexivity]);
    try (destruct (K Hv) as [Hs Hl]; split; first [lia | congruence | assumption]).
Qed.

Lemma resume_verdict_settled t r h h' next :
  resume t r h = Some (h', next) ->
  (stage_request t = true -> loading h = true) ->
  verdict_settled h -> verdict_settled h'.
Proof.
  unfold verdict_settled. intros H Hload K.
  assert (Hnone : stage_request t = true -> finalVerdict h = None).
  { intros Ht. destruct (finalVerdict h) eqn:E; [|reflexivity].
    destruct K as [_ Hl]; [discriminate|].
    rewrite (Hload Ht) in Hl. discriminate. }
  open_resume H; simpl in Hnone; try specialize (Hnone eq_refl);
    try (destruct (resumeEvaluated_cursor data h) as (E1 & _ & E2 & _ & _ & E3);
         rewrite E1, E2, E3);
    simpl; intros Hv; try congruence; try (exact (K Hv));
    try (split; [lia | reflexivity]).
Qed.

Lemma reachable_verdict_settled w : reachable w -> verdict_settled (ui w).
Proof.
  induction 1 as [|w e w' Hw IH H].
  - intros Hv. exfalso. apply Hv. reflexivity.
  - destruct (react_cases _ _ _ H)
      as [(sent & Hc & _)|(i & r & t & next & _ & Hn & Hr & _)].
    + eapply click_verdict_settled; eassumption.
    + eapply resume_verdict_settled; [exact Hr | | exact IH].
      intros Ht. eapply pending_stage_means_loading;
        [apply reachable_serialized, Hw | eapply nth_error_In; exact Hn | exact Ht].
Qed.

(** *** Not going back while loading *)

(** A control that is not one of these four leaves the cursor, or is Skip
    Level 2 on step 3, or needs a stored verdict (View Final Verdict and
    Back to Results). *)
Lemma click_forward h e h' sent :
  click h e = Some (h', sent) ->
  retreats e = false ->
  step h' = step h \/
  (step h = 3 /\ step h' = 4) \/
  finalVerdict h <> None.
Proof.
  intros H Hb; destruct e; simpl in Hb; try discriminate Hb;
    open_click H; views; simpl; auto;
    right; right; destruct (finalVerdict h); discriminate.
Qed.

(** The answer to a stage request leaves the cursor or puts it on the step
    after the one the request was sent from. *)
Lemma resume_target t r h h' next :
  resume t r h = Some (h', next) ->
  (stage_request t = false -> step h' = step h) /\
  (step h' = step h \/ step h' = S (home_step t)) /\
  (forall t', next = Some t' ->
     step h' = step h /\ home_step t' = home_step t /\ stage_request t' = true).
Proof.
  intros H; open_resume H;
    try (destruct (resumeEvaluated_cursor data h) as (E1 & _); rewrite E1);
    simpl; (split; [intros; try discriminate; auto|]);
    (split; [auto|]); intros t' Ht'; inversion Ht'; auto.
Qed.

Lemma steady_step w e w' :
  reachable w -> near_home w ->
  steady_react w e = Some w' ->
  near_home w' /\ moves_in_order e (step (ui w)) (step (ui w')).
Proof.
  intros Hw Hhome H. unfold steady_react in H.
  destruct (retreats e && loading (ui w)) eqn:Hdisc; [discriminate|].
  pose proof (reachable_serialized w Hw) as Hser.
  pose proof (serialized_step w e w' Hser H) as Hser'.
  destruct (react_cases _ _ _ H)
    as [(sent & Hc & Hp)|(i & r & t0 & next & -> & Hn & Hr & Hp)].
  - destruct (click_order _ _ _ _ Hc) as (Hmove & _ & Hsent).
    split; [|exact Hmove].
    pose proof (click_loading _ _ _ _ Hc) as Hload.
    intros t Hin Ht. rewrite Hp in Hin. apply in_app_iff in Hin.
    destruct Hin as [Hin|Hin].
    + destruct sent as [t1|]; simpl in Hin; [|contradiction].
      destruct Hin as [->|[]]. rewrite Ht in Hload.
      destruct Hload as (_ & _ & Hstart).
      assert (Hsame : step (ui w') = step (ui w)).
      { clear - Hc Hstart. destruct e; simpl in Hstart; try discriminate Hstart;
          open_click Hc; try discriminate; reflexivity. }
      left. rewrite Hsame. apply Hsent; [reflexivity | exact Ht].
    + pose proof (pending_stage_means_loading w t Hser Hin Ht) as Hl.
      rewrite Hl, andb_true_r in Hdisc.
      destruct (click_forward _ _ _ _ Hc Hdisc) as [E|[[E3 E4]|Hv]].
      * rewrite E. apply Hhome; assumption.
      * destruct (Hhome t Hin Ht) as [Eh|[_ E5]]; [|lia].
        right. split; [congruence | exact E4].
      * destruct (reachable_verdict_settled w Hw Hv) as [_ Hl'].
        rewrite Hl in Hl'. discriminate.
  - destruct (resume_target _ _ _ _ _ Hr) as (Hplain & Hmove & Hnext).
    pose proof (resume_loading _ _ _ _ _ Hr) as Hload.
    assert (Hin0 : In t0 (pending w)) by (eapply nth_error_In; eassumption).
    split.
    + intros t Hin Ht. rewrite Hp in Hin.
      destruct (stage_request t0) eqn:Ht0.
      * destruct next as [t2|].
        -- destruct (Hnext t2 eq_refl) as (Es & Eh & _). rewrite Es.
           destruct (in_settle_at _ _ _ _ _ Hn Hin) as [Hold|Hnew].
           ++ apply Hhome; assumption.
           ++ inversion Hnew; subst t2. rewrite Eh. apply Hhome; assumption.
        -- exfalso. rewrite <- Hp in Hin.
           rewrite (serialized_idle w' t Hser' Hload Hin) in Ht. discriminate.
      * rewrite (Hplain eq_refl).
        destruct (in_settle_at _ _ _ _ _ Hn Hin) as [Hold|Hnew].
        -- apply Hhome; assumption.
        -- destruct Hload as [-> _]. discriminate.
    + unfold moves_in_order.
      destruct (stage_request t0) eqn:Ht0.
      * destruct Hmove as [E|E]; [left; exact E|].
        destruct (Hhome t0 Hin0 Ht0) as [Eh|[E3 E4]].
        -- right; left. rewrite E, Eh. reflexivity.
        -- left. rewrite E, E3, E4. reflexivity.
      * left. exact (Hplain eq_refl).
Qed.

Lemma steady_run_near_home tr : forall w w',
  reachable w -> near_home w ->
  steady_run w tr = Some w' ->
  reachable w' /\ near_home w'.
Proof.
  induction tr as [|e tr IH]; intros w w' Hw Hh Hrun; simpl in Hrun.
  - inversion Hrun; subst. split; assumption.
  - destruct (steady_react w e) as [w1|] eqn:H1; [|discriminate].
    destruct (steady_step w e w1 Hw Hh H1) as [Hh1 _].
    apply (IH w1 w'); [|exact Hh1|exact Hrun].
    unfold steady_react in H1.
    destruct (retreats e && loading (ui w)); [discriminate|].
    eapply reachable_step; eassumption.
Qed.

(** *** Not starting over while loading *)

Lemma click_rubric h e h' sent :
  click h e = Some (h', sent) ->
  (starts_over e = false -> rubric h' = rubric h) /\
  (starts_over e = true -> step h' = 1 /\ sent = None) /\
  (step h < 2 ->
   step h' = step h /\
   forall t, sent = Some t -> stage_request t = true -> home_step t = 1).
Proof.
  intros H; destruct e; open_click H; views; simpl;
    (split; [intros; try discriminate; reflexivity|]);
    (split; [intros; try discriminate; split; reflexivity|]);
    intros Hlow; try lia;
    (split; [reflexivity|]);
    intros t Ht Hs; inversion Ht; subst; simpl in *; try discriminate;
    reflexivity.
Qed.

Lemma resume_rubric t r h h' next :
  resume t r h = Some (h', next) ->
  (rubric h' = rubric h \/ r = Resolved (BodyRubric (rubric h'))) /\
  ((stage_request t = true -> home_step t = 1) ->
   r = Resolved (BodyRubric (rubric h')) \/
   (step h' = step h /\ rubric h' = rubric h /\
    forall t', next = Some t' -> home_step t' = 1)).
Proof.
  intros H; open_resume H;
    try (destruct (resumeEvaluated_cursor data h) as (_ & _ & _ & E & _));
    (split; [simpl; auto|]); intros Hjd; simpl in Hjd;
    try (specialize (Hjd eq_refl); discriminate Hjd);
    simpl; auto;
    right; repeat split; intros t' Ht'; inversion Ht'; reflexivity.
Qed.

Lemma careful_step w e w' :
  reachable w -> rubric_kept w ->
  rubric_answer_ok e = true ->
  careful_react w e = Some w' ->
  rubric_kept w'.
Proof.
  intros Hw (Hfull & Hempty) Hok H. unfold careful_react in H.
  destruct (starts_over e && loading (ui w)) eqn:Hdisc; [discriminate|].
  pose proof (reachable_serialized w Hw) as Hser.
  unfold rubric_kept.
  destruct (react_cases _ _ _ H)
    as [(sent & Hc & Hp)|(i & r & t0 & next & -> & Hn & Hr & Hp)].
  - destruct (click_rubric _ _ _ _ Hc) as (Hkeep & Hover & Hlow).
    destruct (starts_over e) eqn:Hso.
    + destruct (Hover eq_refl) as [Hs ->]. simpl in Hdisc, Hp.
      split; [rewrite Hs; lia|].
      intros _ t Hin Ht. rewrite Hp in Hin.
      rewrite (serialized_idle w t Hser Hdisc Hin) in Ht. discriminate.
    + rewrite (Hkeep eq_refl).
      destruct (truthy (rubric (ui w))) eqn:Htr.
      * split; [reflexivity | discriminate].
      * assert (Hlt : step (ui w) < 2).
        { destruct (le_lt_dec 2 (step (ui w))) as [Hge|Hlt]; [|exact Hlt].
          specialize (Hfull Hge). discriminate. }
        destruct (Hlow Hlt) as [Hs Hsent].
        split; [rewrite Hs; lia|].
        intros _ t Hin Ht. rewrite Hp in Hin. apply in_app_iff in Hin.
        destruct Hin as [Hin|Hin].
        -- destruct sent as [t1|]; simpl in Hin; [|contradiction].
           destruct Hin as [->|[]]. apply Hsent; [reflexivity | exact Ht].
        -- apply Hempty; [reflexivity | exact Hin | exact Ht].
  - destruct (resume_rubric _ _ _ _ _ Hr) as (Hkeep & Hjd).
    assert (Hin0 : In t0 (pending w)) by (eapply nth_error_In; eassumption).
    destruct (truthy (rubric (ui w))) eqn:Htr.
    + assert (Htr' : truthy (rubric (ui w')) = true).
      { destruct Hkeep as [E| ->]; [rewrite E; exact Htr | exact Hok]. }
      split; [intros _; exact Htr'|]. rewrite Htr'. discriminate.
    + assert (Hlt : step (ui w) < 2).
      { destruct (le_lt_dec 2 (step (ui w))) as [Hge|Hlt]; [|exact Hlt].
        specialize (Hfull Hge). discriminate. }
      destruct Hjd as [-> | (Es & Er & Hnext)].
      * intros Ht0. apply Hempty; [reflexivity | exact Hin0 | exact Ht0].
      * assert (Htr' : truthy (rubric (ui w')) = true) by exact Hok.
        split; [intros _; exact Htr'|]. rewrite Htr'. discriminate.
      * split; [rewrite Es; lia|].
        intros _ t Hin Ht. rewrite Hp in Hin.
        destruct (in_settle_at _ _ _ _ _ Hn Hin) as [Hold|Hnew].
        -- apply Hempty; [reflexivity | exact Hold | exact Ht].
        -- apply Hnext. exact Hnew.
Qed.

Lemma careful_run_rubric_kept tr : forall w w',
  reachable w -> rubric_kept w ->
  forallb rubric_answer_ok tr = true ->
  careful_run w tr = Some w' ->
  rubric_kept w'.
Proof.
  induction tr as [|e tr IH]; intros w w' Hw Hk Hok Hrun; simpl in *.
  - now inversion Hrun; subst.
  - apply andb_prop in Hok. destruct Hok as [He Hok].
    destruct (careful_react w e) as [w1|] eqn:H1; [|discriminate].
    pose proof (careful_step w e w1 Hw Hk He H1) as Hk1.
    apply (IH w1 w'); [|exact Hk1|exact Hok|exact Hrun].
    unfold careful_react in H1.
    destruct (starts_over e && loading (ui w)); [discriminate|].
    eapply reachable_step; eassumption.
Qed.

(** C3, as stated, fails.  With the rubric generated the page is on step 2;
    Back to JD is rendered there and takes the cursor back to step 1. *)
Lemma back_to_jd_moves_cursor_back :
  run boot Sample.to_resume_step = Some Sample.at_resume_step /\
  step (ui Sample.at_resume_step) = 2 /\
  exists w',
    react Sample.at_resume_step ClickBackToJD = Some w' /\
    step (ui w') = 1 /\
    step (ui w') < step (ui Sample.at_resume_step).
Proof.
  split; [vm_compute; reflexivity|]. split; [reflexivity|].
  eexists. split; [vm_compute; reflexivity|]. simpl. lia.
Qed.

(** C3, amended.  The cursor does not only advance: every control, in
    every state, leaves the cursor where it is, moves it one step forward,
    or moves it back through Back to JD, Back, Back to Results, Evaluate
    Another Candidate or Start Over.  In a run where none of Back to JD,
    Back, Evaluate Another Candidate and Start Over is used while a stage
    request is loading, the same holds for every event, the answers to
    requests included.  In a run where Start Over is not used while a
    stage request is loading and the backend answers rubric requests with
    a non-empty rubric, the cursor is on a step from 2 on only with a
    rubric present, so the résumé is never evaluated without one. *)
Theorem cursor_moves_in_order tr w :
  (forall w0 e w1,
     (forall i r, e <> Settle i r) ->
     react w0 e = Some w1 ->
     moves_in_order e (step (ui w0)) (step (ui w1))) /\
  (steady_run boot tr = Some w ->
   forall e w',
     steady_react w e = Some w' ->
     moves_in_order e (step (ui w)) (step (ui w'))) /\
  (careful_run boot tr = Some w ->
   forallb rubric_answer_ok tr = true ->
   (2 <= step (ui w) -> rubric (ui w) <> "") /\
   (step (ui w) = 3 -> rubric (ui w) <> "")).
Proof.
  split; [|split].
  - intros w0 e w1 Hns H. apply react_click in H; [|exact Hns].
    destruct H as (sent & Hc & _). eapply click_order; exact Hc.
  - intros Hrun e w' H.
    assert (Hhome0 : near_home boot) by (intros t []).
    destruct (steady_run_near_home tr boot w reachable_boot Hhome0 Hrun)
      as [Hw Hhome].
    exact (proj2 (steady_step w e w' Hw Hhome H)).
  - intros Hrun Hok.
    assert (Hk0 : rubric_kept boot).
    { split; [simpl; lia | intros _ t []]. }
    destruct (careful_run_rubric_kept tr boot w reachable_boot Hk0 Hok Hrun)
      as [Hfull _].
    split.
    + intros Hge. apply truthy_true, Hfull, Hge.
    + intros E. apply truthy_true, Hfull. lia.
Qed.

Lemma cursor_moves_in_order_witness :
  rubric (ui Sample.at_github_step) <> "" /\
  moves_in_order (Settle 0 (Resolved (BodyGithub Sample.profile)))
    (step (ui (Sample.world_after
                 (Sample.to_github_step ++
                  [TypeGithubUrl "octocat"; ClickAnalyzeGitHub;
                   ClickSkipLevel2])%list)))
    (step (ui (Sample.world_after
                 (Sample.to_github_step ++
                  [TypeGithubUrl "octocat"; ClickAnalyzeGitHub;
                   ClickSkipLevel2;
                   Settle 0 (Resolved (BodyGithub Sample.profile))])%list))).
Proof.
  split.
  - destruct (cursor_moves_in_order Sample.to_github_step Sample.at_github_step)
      as (_ & _ & Hrub).
    destruct Hrub as [_ H3]; [vm_compute; reflexivity | vm_compute; reflexivity|].
    apply H3. reflexivity.
  - destruct (cursor_moves_in_order
                (Sample.to_github_step ++
                 [TypeGithubUrl "octocat"; ClickAnalyzeGitHub; ClickSkipLevel2])%list
                (Sample.world_after
                   (Sample.to_github_step ++
                    [TypeGithubUrl "octocat"; ClickAnalyzeGitHub;
                     ClickSkipLevel2])%list))
      as (_ & Hsteady & _).
    apply Hsteady; vm_compute; reflexivity.
Defined.

(** Each of the four controls has to be left alone: used while a request
    is loading, it lets the answer move the cursor by two steps or more. *)
Remark each_retreat_lets_the_cursor_jump :
  (step (ui (Sample.world_after
               (Sample.to_resume_step ++
                [TypeResumeText "cv"; ClickEvaluateText; ClickBackToJD])%list)) = 1 /\
   step (ui (Sample.world_after
               (Sample.to_resume_step ++
                [TypeResumeText "cv"; ClickEvaluateText; ClickBackToJD;
                 Settle 0 (Resolved (BodyEvaluation Sample.weak_resume))])%list)) = 3) /\
  (step (ui (Sample.world_after
               (Sample.to_github_step ++
                [TypeGithubUrl "octocat"; ClickAnalyzeGitHub; ClickBack])%list)) = 2 /\
   step (ui (Sample.world_after
               (Sample.to_github_step ++
                [TypeGithubUrl "octocat"; ClickAnalyzeGitHub; ClickBack;
                 Settle 0 (Resolved (BodyGithub Sample.profile))])%list)) = 4) /\
  (step (ui (Sample.world_after
               (Sample.to_github_step ++
                [TypeGithubUrl "octocat"; ClickAnalyzeGitHub; ClickSkipLevel2;
                 ClickEvaluateAnotherCandidate])%list)) = 2 /\
   step (ui (Sample.world_after
               (Sample.to_github_step ++
                [TypeGithubUrl "octocat"; ClickAnalyzeGitHub; ClickSkipLevel2;
                 ClickEvaluateAnotherCandidate;
                 Settle 0 (Resolved (BodyGithub Sample.profile))])%list)) = 4) /\
  (step (ui (Sample.world_after
               (Sample.analyzed ++
                [ClickGenerateFinalVerdict; ClickStartOver])%list)) = 1 /\
   step (ui (Sample.world_after
               (Sample.analyzed ++
                [ClickGenerateFinalVerdict; ClickStartOver;
                 Settle 0 (Resolved (BodyVerdict Sample.verdict))])%list)) = 5).
Proof. repeat split; vm_compute; reflexivity. Qed.

(** What the amended property leaves aside: Start Over is not disabled
    while the verdict request is loading.  Used then, it empties the
    session; the verdict that arrives afterwards opens step 5, a jump from
    step 1, and Evaluate Another Candidate leads from there to a résumé
    evaluation on an empty rubric. *)
Remark overtaken_request_reaches_step3_without_rubric :
  run boot Sample.overtaken = Some Sample.at_overtaken /\
  step (ui Sample.at_overtaken) = 3 /\
  evaluation (ui Sample.at_overtaken) = Some Sample.strong_resume /\
  rubric (ui Sample.at_overtaken) = "" /\
  careful_run boot Sample.overtaken = None /\
  steady_run boot Sample.overtaken = None.
Proof. repeat split; vm_compute; reflexivity. Qed.

(** ** The cursor and the progress bar *)

Lemma click_step_range h e h' sent :
  click h e = Some (h', sent) ->
  1 <= step h <= 5 -> 1 <= step h' <= 5.
Proof.
  intros H Hr; destruct e; open_click H; simpl; lia.
Qed.

Lemma resume_step_range t r h h' next :
  resume t r h = Some (h', next) ->
  1 <= step h <= 5 -> 1 <= step h' <= 5.
Proof.
  intros H Hr; open_resume H; simpl; try lia;
    destruct (resumeEvaluated_cursor data h) as (E & _); rewrite E; lia.
Qed.

Lemma reachable_step_range w : reachable w -> 1 <= step (ui w) <= 5.
Proof.
  induction 1 as [|w e w' _ IH H].
  - simpl; lia.
  - destruct (react_cases _ _ _ H)
      as [(sent & Hc & _)|(i & r & t & next & _ & _ & Hr & _)].
    + eapply click_step_range; eassumption.
    + eapply resume_step_range; eassumption.
Qed.

(** X1.  In every state the page can reach the cursor is one of the five
    steps, the highlighted circles of the progress bar are exactly those
    numbered 1 to [step], the highlighted connectors are the [step - 1]
    first ones, and a connector is highlighted exactly when the circle
    after it is. *)
Theorem progress_bar_follows_cursor w :
  reachable w ->
  1 <= step (ui w) <= 5 /\
  map fst (circles_on (ui w)) = seq 1 (step (ui w)) /\
  map fst (connectors_on (ui w)) = seq 1 (step (ui w) - 1) /\
  (forall num, connector_on (ui w) num = circle_on (ui w) (S num)).
Proof.
  intros Hw. pose proof (reachable_step_range w Hw) as Hr.
  split; [exact Hr|].
  assert (Hcases : step (ui w) = 1 \/ step (ui w) = 2 \/ step (ui w) = 3 \/
                   step (ui w) = 4 \/ step (ui w) = 5) by lia.
  unfold circles_on, connectors_on, circle_on, connector_on.
  destruct Hcases as [E|[E|[E|[E|E]]]]; rewrite E; repeat split.
Qed.

Lemma progress_bar_follows_cursor_witness :
  map fst (circles_on (ui Sample.at_analyzed)) = [1; 2; 3; 4] /\
  map fst (connectors_on (ui Sample.at_analyzed)) = [1; 2; 3].
Proof.
  destruct (progress_bar_follows_cursor Sample.at_analyzed) as (_ & Hc & Hk & _).
  - apply (reachable_run boot Sample.analyzed); [exact reachable_boot|].
    vm_compute; reflexivity.
  - split; [exact Hc | exact Hk].
Defined.

(** ** What the page sends *)

Lemma click_carries_text h e h' t :
  click h e = Some (h', Some t) -> carries_text t = true.
Proof.
  intros H; destruct e; open_click H; views; simpl; auto.
Qed.

Lemma resume_carries_text t r h h' t' :
  resume t r h = Some (h', Some t') -> carries_text t' = true.
Proof.
  intros H; open_resume H; reflexivity.
Qed.

(** X2.  The page never sends an empty text: with an empty field the
    control that would send it (Process Text, Evaluate Text, Analyze
    GitHub) has no transition, and in every state the page can reach each
    waiting request that carries a job description, a résumé or a GitHub
    identifier carries a non-empty one. *)
Theorem no_empty_text_is_sent w :
  reachable w ->
  (forall t, In t (pending w) -> carries_text t = true) /\
  (jdText (ui w) = "" -> react w ClickProcessText = None) /\
  (resumeText (ui w) = "" -> react w ClickEvaluateText = None) /\
  (githubUrl (ui w) = "" -> react w ClickAnalyzeGitHub = None).
Proof.
  intros Hw. split.
  - induction Hw as [|w e w' _ IH H]; [intros t []|].
    intros t Hin.
    destruct (react_cases _ _ _ H)
      as [(sent & Hc & Hp)|(i & r & t0 & next & _ & Hn & Hr & Hp)];
      rewrite Hp in Hin.
    + apply in_app_iff in Hin. destruct Hin as [Hin|Hin]; [|exact (IH t Hin)].
      destruct sent as [t1|]; simpl in Hin; [|contradiction].
      destruct Hin as [->|[]]. eapply click_carries_text; eassumption.
    + destruct (in_settle_at _ _ _ _ _ Hn Hin) as [Hold| ->].
      * exact (IH t Hold).
      * eapply resume_carries_text; eassumption.
  - repeat split; intros E; unfold react, click, guard; rewrite E; simpl;
      rewrite ?andb_false_r; reflexivity.
Qed.

Lemma no_empty_text_is_sent_witness :
  carries_text (AnalyzeGitHub_post "octocat") = true /\
  react Sample.at_github_step ClickAnalyzeGitHub = None.
Proof.
  destruct (no_empty_text_is_sent
              (Sample.world_after
                 (Sample.to_github_step ++
                  [TypeGithubUrl "octocat"; ClickAnalyzeGitHub])%list))
    as (Hsent & _).
  - apply (reachable_run boot
             (Sample.to_github_step ++
              [TypeGithubUrl "octocat"; ClickAnalyzeGitHub])%list);
      [exact reachable_boot | vm_compute; reflexivity].
  - split.
    + apply Hsent. vm_compute. left; reflexivity.
    + apply (no_empty_text_is_sent Sample.at_github_step).
      * apply (reachable_run boot Sample.to_github_step);
          [exact reachable_boot | vm_compute; reflexivity].
      * reflexivity.
Defined.

(** ** Error messages *)

(** X3.  A rejected request of any function with a [catch] block that
    writes [error] leaves a non-empty message.  For the six stage
    functions it is the [detail] of the response when there is a
    non-empty one and the fallback of the function otherwise; for
    [downloadPDF], whose request asks for a [Blob], it is always the
    fallback.  A rejected threshold request changes no cell at all. *)
Theorem rejection_always_leaves_a_message w i t d w' :
  nth_error (pending w) i = Some t ->
  react w (Settle i (Rejected d)) = Some w' ->
  match fallback_of t with
  | Some msg =>
      error (ui w') = (if reads_detail t then detail_or d msg else msg) /\
      error (ui w') <> "" /\
      (reads_detail t = true ->
       forall x, d = Some x -> x <> "" -> error (ui w') = x)
  | None => ui w' = ui w
  end.
Proof.
  intros Hn H. apply react_settle in H.
  destruct H as (t' & next & Hn' & Hr & _).
  rewrite Hn in Hn'; inversion Hn'; subst t'; clear Hn'.
  destruct t; simpl in Hr; inversion Hr; subst; clear Hr; simpl;
    try reflexivity;
    repeat match goal with |- _ /\ _ => split end;
    try reflexivity;
    try (destruct d as [[|c x]|]; simpl; discriminate);
    intros Hd; try discriminate Hd;
    intros x -> Hx; (destruct x; [contradiction | reflexivity]).
Qed.

Lemma rejection_always_leaves_a_message_witness :
  error (ui (Sample.world_after
               (Sample.analyzed ++
                [ClickGenerateFinalVerdict; Settle 0 (Rejected (Some ""))])%list))
    = "Failed to generate final verdict".
Proof.
  assert (Hn : nth_error
                 (pending (Sample.world_after
                             (Sample.analyzed ++ [ClickGenerateFinalVerdict])%list)) 0
               = Some GenerateFinalVerdict_post) by (vm_compute; reflexivity).
  assert (Hre : react (Sample.world_after
                         (Sample.analyzed ++ [ClickGenerateFinalVerdict])%list)
                      (Settle 0 (Rejected (Some "")))
                = Some (Sample.world_after
                          (Sample.analyzed ++
                           [ClickGenerateFinalVerdict;
                            Settle 0 (Rejected (Some ""))])%list))
    by (vm_compute; reflexivity).
  destruct (rejection_always_leaves_a_message _ _ _ _ _ Hn Hre) as (E & _).
  exact E.
Defined.




Lemma results_views_hide_error h :
  view4 h || view5 h = true -> error_shown h = false.
Proof.
  unfold error_shown, view1, view2, view3, view4, view5. intros H.
  apply orb_prop in H. destruct H as [H|H]; apply andb_prop in H;
    destruct H as [H _]; apply Nat.eqb_eq in H; rewrite H; reflexivity.
Qed.

(** X5.  The results view and the verdict view have no error banner.  When
    the verdict request or the export request is rejected there, the
    message is stored but not shown; it is shown, unchanged, on the résumé
    step after Evaluate Another Candidate and on step 1 after Start
    Over. *)
Theorem failure_on_results_shows_up_later w i t d w' :
  view4 (ui w) || view5 (ui w) = true ->
  nth_error (pending w) i = Some t ->
  t = GenerateFinalVerdict_post \/ t = DownloadPDF_get ->
  react w (Settle i (Rejected d)) = Some w' ->
  error (ui w') <> "" /\
  error_shown (ui w') = false /\
  (exists w2, react w' ClickEvaluateAnotherCandidate = Some w2 /\
              step (ui w2) = 2 /\
              error_shown (ui w2) = true /\ error (ui w2) = error (ui w')) /\
  (exists w2, react w' ClickStartOver = Some w2 /\
              step (ui w2) = 1 /\
              error_shown (ui w2) = true /\ error (ui w2) = error (ui w')).
Proof.
  intros Hv Hn Ht H.
  assert (Hmsg : error (ui w') <> "").
  { pose proof H as H0. apply react_settle in H0.
    destruct H0 as (t' & next & Hn' & Hr & _).
    rewrite Hn in Hn'; inversion Hn'; subst t'.
    destruct Ht as [-> | ->]; simpl in Hr; inversion Hr;
      destruct d as [[|c x]|]; simpl; discriminate. }
  assert (Hv' : view4 (ui w') || view5 (ui w') = true).
  { apply react_settle in H. destruct H as (t' & next & Hn' & Hr & _).
    rewrite Hn in Hn'; inversion Hn'; subst t'.
    destruct Ht as [-> | ->]; simpl in Hr; inversion Hr; exact Hv. }
  split; [exact Hmsg|]. split; [apply results_views_hide_error, Hv'|].
  apply truthy_true in Hmsg.
  split; unfold react, click; rewrite Hv'; simpl;
    (eexists; split; [reflexivity|]); simpl;
    unfold error_shown, view1, view2; simpl; rewrite Hmsg; repeat split.
Qed.

Lemma failure_on_results_shows_up_later_witness :
  error_shown (ui (Sample.world_after
                     (Sample.skipped ++
                      [ClickDownloadPDF; Settle 0 (Rejected None)])%list)) = false.
Proof.
  assert (Hn : nth_error
                 (pending (Sample.world_after
                             (Sample.skipped ++ [ClickDownloadPDF])%list)) 0
               = Some DownloadPDF_get) by (vm_compute; reflexivity).
  assert (Hre : react (Sample.world_after (Sample.skipped ++ [ClickDownloadPDF])%list)
                      (Settle 0 (Rejected None))
                = Some (Sample.world_after
                          (Sample.skipped ++
                           [ClickDownloadPDF; Settle 0 (Rejected None)])%list))
    by (vm_compute; reflexivity).
  assert (Hv : view4 (ui (Sample.world_after
                            (Sample.skipped ++ [ClickDownloadPDF])%list))
               || view5 (ui (Sample.world_after
                               (Sample.skipped ++ [ClickDownloadPDF])%list)) = true)
    by (vm_compute; reflexivity).
  destruct (failure_on_results_shows_up_later _ 0 DownloadPDF_get None _
              Hv Hn (or_intror eq_refl) Hre) as (_ & Hhidden & _).
  exact Hhidden.
Defined.

(** ** The GitHub field after a résumé evaluation *)

Lemma analyze_enabled w :
  view3 (ui w) = true -> githubUrl (ui w) <> "" -> loading (ui w) = false ->
  exists w2, react w ClickAnalyzeGitHub = Some w2 /\
             pending w2 = AnalyzeGitHub_post (githubUrl (ui w)) :: pending w.
Proof.
  intros Hv Hu Hl. apply truthy_true in Hu.
  unfold react, click. rewrite Hv, Hu, Hl. simpl.
  eexists; split; reflexivity.
Qed.

Lemma analyze_disabled w :
  githubUrl (ui w) = "" -> react w ClickAnalyzeGitHub = None.
Proof.
  intros Hu. unfold react, click, guard. rewrite Hu. simpl.
  rewrite andb_false_r. reflexivity.
Qed.

Lemma resume_evaluation_always_advances_aux w i t data :
  nth_error (pending w) i = Some t ->
  resume_request t = true ->
  exists w',
    react w (Settle i (Resolved (BodyEvaluation data))) = Some w' /\
    ui w' = resumeEvaluated data (ui w).
Proof.
  intros Hn Ht. unfold react. rewrite Hn.
  destruct t; simpl in Ht; try discriminate Ht; cbn [resume];
    eexists; split; reflexivity.
Qed.

(** X6.  A résumé answer that names a non-empty GitHub address puts it in
    the GitHub field, and Analyze GitHub can be used at once and sends that
    address.  An answer that names none leaves the field as it was: an
    identifier typed or detected before stays there and is what Analyze
    GitHub sends, and with an empty field Analyze GitHub is disabled. *)
Theorem detected_github_url_fills_field w i t data :
  nth_error (pending w) i = Some t ->
  resume_request t = true ->
  exists w',
    react w (Settle i (Resolved (BodyEvaluation data))) = Some w' /\
    (forall u, Evaluation.github_url data = Some u -> u <> "" ->
       githubUrl (ui w') = u /\
       exists w2, react w' ClickAnalyzeGitHub = Some w2 /\
                  pending w2 = AnalyzeGitHub_post u :: pending w') /\
    (Evaluation.github_url data = None \/ Evaluation.github_url data = Some "" ->
       githubUrl (ui w') = githubUrl (ui w) /\
       (githubUrl (ui w) = "" -> react w' ClickAnalyzeGitHub = None) /\
       (githubUrl (ui w) <> "" ->
        exists w2, react w' ClickAnalyzeGitHub = Some w2 /\
                   pending w2 = AnalyzeGitHub_post (githubUrl (ui w)) :: pending w')).
Proof.
  intros Hn Ht.
  destruct (resume_evaluation_always_advances_aux w i t data Hn Ht)
    as (w' & Hre & Hui).
  exists w'. split; [exact Hre|].
  destruct (resumeEvaluated_cursor data (ui w)) as (Hs & He & Hl & _).
  rewrite <- Hui in Hs, He, Hl.
  assert (Hv : view3 (ui w') = true) by (unfold view3; rewrite Hs, He; reflexivity).
  split.
  - intros u Hu Hne.
    assert (E : githubUrl (ui w') = u).
    { apply truthy_true in Hne. rewrite Hui. unfold resumeEvaluated.
      rewrite Hu, Hne. reflexivity. }
    split; [exact E|]. rewrite <- E. apply analyze_enabled; congruence.
  - intros Hu.
    assert (E : githubUrl (ui w') = githubUrl (ui w)).
    { rewrite Hui. unfold resumeEvaluated. destruct Hu as [-> | ->]; reflexivity. }
    split; [exact E|]. rewrite <- E. split.
    + apply analyze_disabled.
    + intros Hfull. apply analyze_enabled; assumption.
Qed.

Lemma detected_github_url_fills_field_witness :
  exists w',
    react (Sample.world_after
             (Sample.to_resume_step ++ [TypeResumeText "cv"; ClickEvaluateText])%list)
          (Settle 0 (Resolved (BodyEvaluation Sample.strong_resume))) = Some w' /\
    githubUrl (ui w') = "https://github.com/octocat".
Proof.
  destruct (detected_github_url_fills_field
              (Sample.world_after
                 (Sample.to_resume_step ++ [TypeResumeText "cv"; ClickEvaluateText])%list)
              0 (EvaluateResume_post "cv") Sample.strong_resume)
    as (w' & Hre & Hsome & _).
  - vm_compute; reflexivity.
  - reflexivity.
  - exists w'. split; [exact Hre|].
    apply (Hsome "https://github.com/octocat"); [reflexivity | discriminate].
Defined.

(** ** The verdict, once stored *)

Lemma filter_settle_at (p : Task -> bool) (i : nat) (t : Task)
      (next : option Task) (l : list Task) :
  nth_error l i = Some t ->
  length (filter p (settle_at i next l))
  <= length (filter p l) + length (filter p (opt_list next)).
Proof.
  intros Hn. destruct (settle_at_split i t next l Hn) as (l1 & l2 & -> & ->).
  rewrite !filter_app, !length_app. simpl. destruct (p t); simpl; lia.
Qed.

(** X7.  While a verdict is stored no event sends a verdict request, so
    the verdict of a candidate is not generated a second time; on the
    results view the stored verdict is reached through View Final Verdict,
    which goes to step 5 and leaves the verdict as it is. *)
Theorem stored_verdict_is_not_regenerated w :
  finalVerdict (ui w) <> None ->
  (forall e w', react w e = Some w' ->
     verdict_requests (pending w') <= verdict_requests (pending w)) /\
  react w ClickGenerateFinalVerdict = None /\
  (view4 (ui w) = true ->
   exists w', react w ClickViewFinalVerdict = Some w' /\
              step (ui w') = 5 /\ view5 (ui w') = true /\
              finalVerdict (ui w') = finalVerdict (ui w) /\
              pending w' = pending w).
Proof.
  intros Hv. assert (Hs : isSome (finalVerdict (ui w)) = true)
    by (destruct (finalVerdict (ui w)); [reflexivity | contradiction]).
  split; [|split].
  - intros e w' H. unfold verdict_requests.
    destruct (react_cases _ _ _ H)
      as [(sent & Hc & Hp)|(i & r & t & next & _ & Hn & Hr & Hp)]; rewrite Hp.
    + rewrite filter_app, length_app.
      enough (E : length (filter (fun t => match t with
                                           | GenerateFinalVerdict_post => true
                                           | _ => false
                                           end) (opt_list sent)) = 0) by lia.
      destruct e; open_click Hc; try reflexivity.
      views. rewrite Hs in *. discriminate.
    + etransitivity; [eapply filter_settle_at; exact Hn|].
      enough (E : length (filter (fun t => match t with
                                           | GenerateFinalVerdict_post => true
                                           | _ => false
                                           end) (opt_list next)) = 0) by lia.
      clear - Hr. open_resume Hr; reflexivity.
  - unfold react, click, guard. rewrite Hs. simpl.
    rewrite andb_false_r. reflexivity.
  - intros H4. unfold react, click. rewrite H4, Hs. simpl.
    eexists; split; [reflexivity|]. unfold view5. simpl. rewrite Hs.
    repeat split.
Qed.

Lemma stored_verdict_is_not_regenerated_witness :
  react (Sample.world_after
           (Sample.analyzed ++
            [ClickGenerateFinalVerdict;
             Settle 0 (Resolved (BodyVerdict Sample.verdict));
             ClickBackToResults])%list)
        ClickGenerateFinalVerdict = None.
Proof.
  apply (stored_verdict_is_not_regenerated
           (Sample.world_after
              (Sample.analyzed ++
               [ClickGenerateFinalVerdict;
                Settle 0 (Resolved (BodyVerdict Sample.verdict));
                ClickBackToResults])%list)).
  vm_compute; discriminate.
Defined.

(** X8.  Back to Results and View Final Verdict undo each other: from the
    verdict view with the résumé artifact present, going back and viewing
    again gives the very same state, and so does viewing and going back
    from the results view.  When the résumé artifact is gone, Back to
    Results leads to a blank page instead. *)
Theorem results_and_verdict_round_trip w :
  (view5 (ui w) = true -> evaluation (ui w) <> None ->
   run w [ClickBackToResults; ClickViewFinalVerdict] = Some w) /\
  (view4 (ui w) = true -> finalVerdict (ui w) <> None ->
   run w [ClickViewFinalVerdict; ClickBackToResults] = Some w) /\
  (view5 (ui w) = true -> evaluation (ui w) = None ->
   exists w', react w ClickBackToResults = Some w' /\ blank (ui w') = true).
Proof.
  destruct w as [h p]. destruct h as [s jd rb rt ev gu ga fv ld er sh th dm].
  unfold view4, view5, blank, view1, view2, view3, run, react, click;
    cbn [ui pending step evaluation finalVerdict].
  split; [|split]; intros H Hx; apply andb_prop in H; destruct H as [Hs Hy];
    apply Nat.eqb_eq in Hs; subst s.
  - destruct ev; [|contradiction]. destruct fv; [|discriminate]. reflexivity.
  - destruct fv; [|contradiction]. destruct ev; [|discriminate]. reflexivity.
  - cbn [evaluation] in Hx. subst ev. destruct fv; [|discriminate].
    eexists; split; reflexivity.
Qed.

Lemma results_and_verdict_round_trip_witness :
  run (Sample.world_after
         (Sample.analyzed ++
          [ClickGenerateFinalVerdict;
           Settle 0 (Resolved (BodyVerdict Sample.verdict))])%list)
      [ClickBackToResults; ClickViewFinalVerdict]
  = Some (Sample.world_after
            (Sample.analyzed ++
             [ClickGenerateFinalVerdict;
              Settle 0 (Resolved (BodyVerdict Sample.verdict))])%list).
Proof.
  apply (results_and_verdict_round_trip
           (Sample.world_after
              (Sample.analyzed ++
               [ClickGenerateFinalVerdict;
                Settle 0 (Resolved (BodyVerdict Sample.verdict))])%list)).
  - vm_compute; reflexivity.
  - vm_compute; discriminate.
Defined.

(** ** The blank page *)

Lemma blank_session h h' : session h' = session h -> blank h' = blank h.
Proof.
  intros E. unfold blank, view1, view2, view3, view4, view5.
  pose proof (f_equal s_stage E) as E1.
  pose proof (f_equal s_evaluation E) as E2.
  pose proof (f_equal s_verdict E) as E3.
  simpl in E1, E2, E3. rewrite E1, E2, E3. reflexivity.
Qed.

Lemma click_on_blank h e h' sent :
  blank h = true ->
  click h e = Some (h', sent) ->
  header_control e = true /\
  session h' = session h /\
  (forall t, sent = Some t -> stage_request t = false).
Proof.
  unfold blank. intros Hb H. apply negb_true_iff in Hb.
  repeat (apply orb_false_iff in Hb; destruct Hb as [Hb ?]).
  destruct e; open_click H;
    try (split; [reflexivity|]; split; [reflexivity|];
         intros t Ht; inversion Ht; reflexivity);
    exfalso;
    repeat match goal with
           | G : _ && _ = true |- _ => apply andb_prop in G; destruct G
           | G : _ || _ = true |- _ => apply orb_prop in G; destruct G
           end; congruence.
Qed.

Lemma resume_plain t r h h' next :
  stage_request t = false ->
  resume t r h = Some (h', next) ->
  session h' = session h /\ next = None.
Proof.
  intros Ht H; open_resume H; simpl in Ht; try discriminate Ht;
    split; reflexivity.
Qed.

Lemma stuck_step w e w' : stuck w -> react w e = Some w' -> stuck w'.
Proof.
  intros [Hb Hp] H.
  destruct (react_cases _ _ _ H)
    as [(sent & Hc & Hp')|(i & r & t & next & _ & Hn & Hr & Hp')].
  - destruct (click_on_blank _ _ _ _ Hb Hc) as (_ & Hs & Hsent).
    split; [rewrite (blank_session _ _ Hs); exact Hb|].
    intros t Hin. rewrite Hp' in Hin. apply in_app_iff in Hin.
    destruct Hin as [Hin|Hin]; [|exact (Hp t Hin)].
    destruct sent as [t0|]; simpl in Hin; [|contradiction].
    destruct Hin as [->|[]]. apply Hsent. reflexivity.
  - assert (Ht : stage_request t = false)
      by (apply Hp; eapply nth_error_In; eassumption).
    destruct (resume_plain _ _ _ _ _ Ht Hr) as [Hs ->].
    split; [rewrite (blank_session _ _ Hs); exact Hb|].
    intros t' Hin. rewrite Hp' in Hin.
    destruct (in_settle_at _ _ _ _ _ Hn Hin) as [Hold|Hnew];
      [exact (Hp t' Hold) | discriminate].
Qed.

(** X9.  On a blank page (no block of the five rendered) only the header
    controls and the settings dialog respond.  Once the page is blank with
    no stage request waiting it stays blank whatever happens next, and
    such a state can be reached: Start Over used while the GitHub request
    is loading, followed by the answer, leaves step 4 without a résumé
    artifact. *)
Theorem blank_page_is_a_dead_end :
  (forall w e w', blank (ui w) = true -> react w e = Some w' ->
     header_control e = true \/ exists i r, e = Settle i r) /\
  (forall tr w w', stuck w -> run w tr = Some w' ->
     blank (ui w') = true /\ session (ui w') = session (ui w)) /\
  (run boot late_analysis = Some at_late_analysis /\
   stuck at_late_analysis /\
   step (ui at_late_analysis) = 4 /\
   evaluation (ui at_late_analysis) = None).
Proof.
  split; [|split].
  - intros w e w' Hb H.
    destruct (react_cases _ _ _ H)
      as [(sent & Hc & _)|(i & r & t & next & -> & _)].
    + left. eapply click_on_blank; eassumption.
    + right. eauto.
  - induction tr as [|e tr IH]; intros w w' Hw Hrun; simpl in Hrun.
    + inversion Hrun; subst. split; [exact (proj1 Hw) | reflexivity].
    + destruct (react w e) as [w1|] eqn:H1; [|discriminate].
      pose proof (stuck_step w e w1 Hw H1) as Hw1.
      destruct (IH w1 w' Hw1 Hrun) as [Hb Hs]. split; [exact Hb|].
      rewrite Hs. destruct Hw as [Hb0 Hp].
      destruct (react_cases _ _ _ H1)
        as [(sent & Hc & _)|(i & r & t & next & _ & Hn & Hr & _)].
      * eapply click_on_blank; eassumption.
      * eapply resume_plain; [|exact Hr].
        apply Hp. eapply nth_error_In; eassumption.
  - split; [vm_compute; reflexivity|]. split; [|split; reflexivity].
    split; [reflexivity|]. intros t [].
Qed.

Lemma blank_page_is_a_dead_end_witness :
  blank (ui (Sample.world_after
               (late_analysis ++
                [OpenSettings; Settle 0 (Resolved (BodyThresholds
                                                    (mkThresholds 5 5 5)));
                 ToggleDarkMode])%list)) = true.
Proof.
  destruct blank_page_is_a_dead_end as (_ & Hstay & _ & Hstuck & _).
  apply (Hstay [OpenSettings;
                Settle 0 (Resolved (BodyThresholds (mkThresholds 5 5 5)));
                ToggleDarkMode] at_late_analysis).
  - exact Hstuck.
  - vm_compute; reflexivity.
Defined.

(** ** Artifacts and steps in a patient run *)

Lemma patient_at_home w e w' :
  serialized w -> at_home w ->
  patient_react w e = Some w' ->
  at_home w'.
Proof.
  intros Hser Hhome H. unfold patient_react in H.
  destruct (navigation e && loading (ui w)) eqn:Hnav; [discriminate|].
  pose proof (serialized_step w e w' Hser H) as Hser'.
  destruct (react_cases _ _ _ H)
    as [(sent & Hc & Hp)|(i & r & t & next & -> & Hn & Hr & Hp)].
  - pose proof (click_loading _ _ _ _ Hc) as Hload.
    destruct (click_order _ _ _ _ Hc) as (_ & _ & Hsent).
    intros t Hin Ht. rewrite Hp in Hin. apply in_app_iff in Hin.
    destruct Hin as [Hin|Hin].
    + destruct sent as [t0|]; simpl in Hin; [|contradiction].
      destruct Hin as [->|[]]. rewrite Ht in Hload.
      destruct Hload as (_ & _ & Hstart).
      assert (Hsame : step (ui w') = step (ui w)).
      { clear - Hc Hstart. destruct e; simpl in Hstart; try discriminate Hstart;
          open_click Hc; try discriminate; reflexivity. }
      rewrite Hsame. apply Hsent; [reflexivity | exact Ht].
    + destruct (loading (ui w)) eqn:Hl.
      * rewrite andb_true_r in Hnav.
        assert (Hsame : step (ui w') = step (ui w)).
        { clear - Hc Hnav. destruct e; simpl in Hnav; try discriminate Hnav;
            open_click Hc; reflexivity. }
        rewrite Hsame. apply Hhome; assumption.
      * rewrite (serialized_idle w t Hser Hl Hin) in Ht. discriminate.
  - destruct (resume_order _ _ _ _ _ Hr) as (Hplain & Hstage).
    pose proof (resume_loading _ _ _ _ _ Hr) as Hload.
    assert (Hin0 : In t (pending w)) by (eapply nth_error_In; eassumption).
    intros t' Hin Ht'. rewrite Hp in Hin.
    destruct (stage_request t) eqn:Ht.
    + specialize (Hstage eq_refl (Hhome t Hin0 Ht)).
      destruct Hstage as (_ & Hnext & _).
      destruct (in_settle_at _ _ _ _ _ Hn Hin) as [Hold| ->].
      * destruct next as [t2|].
        -- destruct (Hnext t2 eq_refl) as [_ ->]. apply Hhome; assumption.
        -- rewrite (serialized_idle w' t' Hser' Hload) in Ht'; [discriminate|].
           rewrite Hp. exact Hin.
      * destruct (Hnext t' eq_refl) as [-> ->]. apply Hhome; assumption.
    + destruct (Hplain eq_refl) as [Es _]. rewrite Es.
      destruct (in_settle_at _ _ _ _ _ Hn Hin) as [Hold|Hnew].
      * apply Hhome; assumption.
      * destruct Hload as [-> _]. discriminate.
Qed.

(** What a response does to the fit of artifacts and step, when the
    request was sent from the step the page is on. *)
Lemma resume_fits t r h h' next :
  resume t r h = Some (h', next) ->
  (stage_request t = true -> step h = home_step t) ->
  (t = GenerateFinalVerdict_post -> githubAnalysis h <> None) ->
  fits h ->
  fits h' /\ (githubAnalysis h <> None -> githubAnalysis h' <> None).
Proof.
  unfold fits. intros H Hhome Hv (Hr & He & Hg & Hfg).
  open_resume H; simpl in Hhome;
    try specialize (Hhome eq_refl);
    try specialize (Hv eq_refl);
    try (destruct (resumeEvaluated_cursor data h) as (E1 & E2 & _ & _ & E3 & E4);
         rewrite E1, E2, E3, E4);
    simpl; repeat split; intros; try lia; try congruence; auto;
    try (apply He; lia);
    try (exfalso; assert (4 <= step h) by (apply Hg; auto; congruence); lia).
Qed.

Lemma click_fits h e h' sent :
  click h e = Some (h', sent) ->
  fits h ->
  fits h' /\
  (sent = Some GenerateFinalVerdict_post -> githubAnalysis h' <> None) /\
  (navigation e = false -> githubAnalysis h' = githubAnalysis h).
Proof.
  unfold fits. intros H (Hr & He & Hg & Hfg).
  destruct e; open_click H; views; simpl in *;
    repeat match goal with
           | G : isSome ?o = true |- _ => destruct o eqn:?; [clear G | discriminate G]
           end;
    repeat split; intros; try lia; try congruence; auto;
    try (apply He; lia);
    try (exfalso; assert (4 <= step h) by (apply Hg; auto; congruence); lia).
Qed.

Lemma patient_tidy_step w e w' :
  tidy w -> patient_react w e = Some w' -> tidy w'.
Proof.
  intros (Hser & Hhome & Hfit & Hvp) H.
  pose proof (patient_at_home w e w' Hser Hhome H) as Hhome'.
  unfold patient_react in H.
  destruct (navigation e && loading (ui w)) eqn:Hnav; [discriminate|].
  pose proof (serialized_step w e w' Hser H) as Hser'.
  split; [exact Hser'|]. split; [exact Hhome'|].
  destruct (react_cases _ _ _ H)
    as [(sent & Hc & Hp)|(i & r & t & next & -> & Hn & Hr & Hp)].
  - destruct (click_fits _ _ _ _ Hc Hfit) as (Hfit' & Hsent & Hkeep).
    split; [exact Hfit'|].
    intros Hin. rewrite Hp in Hin. apply in_app_iff in Hin.
    destruct Hin as [Hin|Hin].
    + destruct sent as [t0|]; simpl in Hin; [|contradiction].
      destruct Hin as [->|[]]. apply Hsent. reflexivity.
    + destruct (navigation e) eqn:Hne.
      * simpl in Hnav.
        pose proof (serialized_idle w _ Hser Hnav Hin) as Hidle.
        discriminate Hidle.
      * rewrite (Hkeep eq_refl). apply Hvp, Hin.
  - assert (Hin0 : In t (pending w)) by (eapply nth_error_In; eassumption).
    destruct (resume_fits t r (ui w) (ui w') next Hr) as (Hfit' & Hmono).
    + intros Ht. apply Hhome; assumption.
    + intros ->. apply Hvp, Hin0.
    + exact Hfit.
    + split; [exact Hfit'|].
      intros Hin. rewrite Hp in Hin.
      destruct (in_settle_at _ _ _ _ _ Hn Hin) as [Hold|Hnew].
      * apply Hmono, Hvp, Hold.
      * exfalso. clear - Hr Hnew. subst next. open_resume Hr.
Qed.

Lemma tidy_boot : tidy boot.
Proof.
  split; [reflexivity|]. split; [intros t []|]. split.
  - unfold fits; simpl. repeat split; intros; try lia; congruence.
  - intros [].
Qed.

Lemma fits_blank h :
  fits h -> blank h = true -> step h = 5 /\ finalVerdict h = None.
Proof.
  unfold fits, blank, view1, view2, view3, view4, view5.
  intros (Hr & He & _) Hb.
  assert (Hcases : step h = 1 \/ step h = 2 \/ step h = 3 \/
                   step h = 4 \/ step h = 5) by lia.
  destruct Hcases as [E|[E|[E|[E|E]]]]; rewrite E in *; simpl in Hb;
    try discriminate Hb.
  - destruct (evaluation h); [discriminate Hb | exfalso; apply He; [lia | reflexivity]].
  - destruct (evaluation h); [discriminate Hb | exfalso; apply He; [lia | reflexivity]].
  - split; [reflexivity|]. destruct (finalVerdict h); [discriminate Hb | reflexivity].
Qed.

(** X10.  In a run where the navigation controls are left alone while a
    stage request is loading, the artifacts fit the step: from step 3 on
    the résumé artifact is stored, a profile analysis is stored only on
    steps 4 and 5, and a verdict is stored only together with a profile
    analysis and a résumé artifact.  The page is then blank in one case
    only: on step 5 without a verdict, where a verdict request answered
    without data leads. *)
Theorem patient_run_keeps_artifacts_in_step tr w :
  patient_run boot tr = Some w ->
  (blank (ui w) = true -> step (ui w) = 5 /\ finalVerdict (ui w) = None) /\
  (3 <= step (ui w) -> evaluation (ui w) <> None) /\
  (githubAnalysis (ui w) <> None ->
     4 <= step (ui w) /\ evaluation (ui w) <> None) /\
  (finalVerdict (ui w) <> None ->
     4 <= step (ui w) /\ githubAnalysis (ui w) <> None /\
     evaluation (ui w) <> None).
Proof.
  intros Hrun.
  assert (Hw : tidy w).
  { revert Hrun. generalize tidy_boot. generalize boot as w0.
    induction tr as [|e tr IH]; intros w0 Hw0 Hrun; simpl in Hrun.
    - now inversion Hrun; subst.
    - destruct (patient_react w0 e) as [w1|] eqn:H1; [|discriminate].
      exact (IH w1 (patient_tidy_step w0 e w1 Hw0 H1) Hrun). }
  destruct Hw as (_ & _ & Hfit & _).
  split; [exact (fits_blank _ Hfit)|].
  destruct Hfit as (Hr & He & Hg & Hfg).
  split; [exact He|]. split.
  - intros Ha. pose proof (Hg Ha). split; [assumption | apply He; lia].
  - intros Hv. pose proof (Hfg Hv) as Ha. pose proof (Hg Ha).
    split; [assumption|]. split; [assumption | apply He; lia].
Qed.

Lemma patient_run_keeps_artifacts_in_step_witness :
  step (ui (Sample.world_after
              (Sample.analyzed ++
               [ClickGenerateFinalVerdict; Settle 0 (Resolved BodyNone)])%list)) = 5 /\
  evaluation (ui Sample.at_analyzed) <> None.
Proof.
  split.
  - destruct (patient_run_keeps_artifacts_in_step
                (Sample.analyzed ++
                 [ClickGenerateFinalVerdict; Settle 0 (Resolved BodyNone)])%list
                (Sample.world_after
                   (Sample.analyzed ++
                    [ClickGenerateFinalVerdict; Settle 0 (Resolved BodyNone)])%list))
      as (Hb & _).
    + vm_compute; reflexivity.
    + apply Hb. vm_compute; reflexivity.
  - destruct (patient_run_keeps_artifacts_in_step Sample.analyzed Sample.at_analyzed)
      as (_ & He & _).
    + vm_compute; reflexivity.
    + apply He. vm_compute. lia.
Defined.

(** ** Job-description requests stay on step 1 *)

Lemma click_on_step1 h e h' sent :
  click h e = Some (h', sent) -> step h = 1 -> step h' = 1.
Proof.
  intros H Hs; destruct e; open_click H; views; simpl; congruence.
Qed.

Lemma click_sends_jd h e h' t :
  click h e = Some (h', Some t) -> jd_request t = true -> step h' = 1.
Proof.
  intros H Ht; destruct e; open_click H; views; simpl in *;
    try discriminate; assumption.
Qed.

Lemma jd_request_is_stage t : jd_request t = true -> stage_request t = true.
Proof. destruct t; simpl; congruence. Qed.

Lemma jd_anchored_step w e w' :
  serialized w -> jd_anchored w -> react w e = Some w' -> jd_anchored w'.
Proof.
  intros Hser Hjd H t Hin Ht.
  pose proof (serialized_step w e w' Hser H) as Hser'.
  destruct (react_cases _ _ _ H)
    as [(sent & Hc & Hp)|(i & r & t0 & next & _ & Hn & Hr & Hp)];
    rewrite Hp in Hin.
  - apply in_app_iff in Hin. destruct Hin as [Hin|Hin].
    + destruct sent as [t1|]; simpl in Hin; [|contradiction].
      destruct Hin as [->|[]]. eapply click_sends_jd; eassumption.
    + eapply click_on_step1; [exact Hc|]. exact (Hjd t Hin Ht).
  - assert (Hin0 : In t0 (pending w)) by (eapply nth_error_In; eassumption).
    pose proof (resume_loading _ _ _ _ _ Hr) as Hload.
    destruct (stage_request t0) eqn:Hst.
    + destruct next as [t2|].
      * assert (Hsame : ui w' = ui w /\ jd_request t0 = true).
        { clear - Hr. open_resume Hr; split; reflexivity. }
        destruct Hsame as [-> Hj0]. exact (Hjd t0 Hin0 Hj0).
      * exfalso. rewrite <- Hp in Hin.
        pose proof (serialized_idle w' t Hser' Hload Hin) as Hidle.
        rewrite (jd_request_is_stage t Ht) in Hidle. discriminate.
    + destruct (resume_plain _ _ _ _ _ Hst Hr) as [Hs ->].
      destruct (in_settle_at _ _ _ _ _ Hn Hin) as [Hold|Hnew]; [|discriminate].
      rewrite (f_equal s_stage Hs : step (ui w') = step (ui w)).
      exact (Hjd t Hold Ht).
Qed.

Lemma reachable_jd_anchored w : reachable w -> jd_anchored w.
Proof.
  induction 1 as [|w e w' Hw IH H].
  - intros t [].
  - eapply jd_anchored_step; [apply reachable_serialized| |]; eassumption.
Qed.

Lemma stage_requests_are_serialized_aux w :
  reachable w ->
  length (in_flight w) <= 1 /\
  (in_flight w <> [] <-> loading (ui w) = true).
Proof.
  intros Hw. pose proof (reachable_serialized w Hw) as Hser.
  unfold serialized in Hser.
  destruct (loading (ui w)), (in_flight w); simpl in Hser |- *;
    (split; [lia | split; intros; congruence]).
Qed.

(** X11.  However the navigation controls are used, a job-description
    request (upload or rubric generation) waits only while the page is on
    step 1 with [loading] set; so the rubric that answers it is always
    stored from step 1 and takes the cursor exactly to step 2. *)
Theorem rubric_answer_moves_from_step1_to_step2 w i t :
  reachable w ->
  nth_error (pending w) i = Some t ->
  jd_request t = true ->
  step (ui w) = 1 /\ loading (ui w) = true /\
  (t = UploadJD_generate \/ t = UploadJDFile_generate ->
   forall r, exists w',
     react w (Settle i (Resolved (BodyRubric r))) = Some w' /\
     step (ui w') = 2 /\ rubric (ui w') = r /\ loading (ui w') = false /\
     view2 (ui w') = true).
Proof.
  intros Hw Hn Ht.
  assert (Hin : In t (pending w)) by (eapply nth_error_In; eassumption).
  split; [exact (reachable_jd_anchored w Hw t Hin Ht)|]. split.
  - destruct (stage_requests_are_serialized_aux w Hw) as [_ Hiff].
    apply Hiff. unfold in_flight. intros E.
    assert (Hf : In t (filter stage_request (pending w)))
      by (apply filter_In; split; [exact Hin | apply jd_request_is_stage, Ht]).
    rewrite E in Hf. exact Hf.
  - intros Hgen r. unfold react. rewrite Hn.
    destruct Hgen as [-> | ->]; simpl; eexists; (split; [reflexivity|]);
      repeat split.
Qed.

Lemma rubric_answer_moves_from_step1_to_step2_witness :
  step (ui (Sample.world_after
              [TypeJdText "jd"; ClickProcessText; Settle 0 (Resolved BodyNone)])) = 1.
Proof.
  apply (rubric_answer_moves_from_step1_to_step2
           (Sample.world_after
              [TypeJdText "jd"; ClickProcessText; Settle 0 (Resolved BodyNone)])
           0 UploadJD_generate).
  - apply (reachable_run boot
             [TypeJdText "jd"; ClickProcessText; Settle 0 (Resolved BodyNone)]);
      [exact reachable_boot | vm_compute; reflexivity].
  - vm_compute; reflexivity.
  - reflexivity.
Defined.

(** ** Who writes the session *)

(** X12.  Each cell of the session has few writers.  The rubric changes
    only by a rubric answer that carries one and by Start Over.  The
    résumé artifact, the profile analysis and the verdict change only by
    an answer to their own request, which stores what it carries or, when
    it carries no data, empties the cell, and by Evaluate Another
    Candidate and Start Over.  The job description text changes only by
    typing and by Start Over (an uploaded file never fills it). *)
Theorem session_cells_have_few_writers w e w' :
  react w e = Some w' ->
  (rubric (ui w') <> rubric (ui w) ->
     e = ClickStartOver \/
     exists i r, e = Settle i (Resolved (BodyRubric r)) /\ rubric (ui w') = r) /\
  (evaluation (ui w') <> evaluation (ui w) ->
     e = ClickStartOver \/ e = ClickEvaluateAnotherCandidate \/
     (exists i d, e = Settle i (Resolved (BodyEvaluation d)) /\
                  evaluation (ui w') = Some d) \/
     (exists i t, e = Settle i (Resolved BodyNone) /\
                  nth_error (pending w) i = Some t /\
                  resume_request t = true /\
                  evaluation (ui w') = None)) /\
  (githubAnalysis (ui w') <> githubAnalysis (ui w) ->
     e = ClickStartOver \/ e = ClickEvaluateAnotherCandidate \/
     (exists i d, e = Settle i (Resolved (BodyGithub d)) /\
                  githubAnalysis (ui w') = Some d) \/
     (exists i u, e = Settle i (Resolved BodyNone) /\
                  nth_error (pending w) i = Some (AnalyzeGitHub_post u) /\
                  githubAnalysis (ui w') = None)) /\
  (finalVerdict (ui w') <> finalVerdict (ui w) ->
     e = ClickStartOver \/ e = ClickEvaluateAnotherCandidate \/
     (exists i d, e = Settle i (Resolved (BodyVerdict d)) /\
                  finalVerdict (ui w') = Some d) \/
     (exists i, e = Settle i (Resolved BodyNone) /\
                nth_error (pending w) i = Some GenerateFinalVerdict_post /\
                finalVerdict (ui w') = None)) /\
  (jdText (ui w') <> jdText (ui w) ->
     e = ClickStartOver \/ exists v, e = TypeJdText v /\ jdText (ui w') = v).
Proof.
  intros H.
  destruct (react_cases _ _ _ H)
    as [(sent & Hc & _)|(i & r & t & next & -> & Hn & Hr & _)];
    clear H; destruct w' as [h' p']; cbn [ui] in *.
  - destruct e; open_click Hc; simpl;
      repeat split; intros Hne;
      try (exfalso; apply Hne; reflexivity); eauto 6.
  - open_resume Hr; try split_github_url; simpl;
      repeat split; intros Hne;
      try (exfalso; apply Hne; reflexivity); eauto 10.
Qed.

Lemma session_cells_have_few_writers_witness :
  TypeJdText "another job" = ClickStartOver \/
  exists v, TypeJdText "another job" = TypeJdText v /\
            jdText (ui (Sample.world_after
                          (Sample.to_resume_step ++
                           [ClickBackToJD; TypeJdText "another job"])%list)) = v.
Proof.
  assert (Hre : react (Sample.world_after
                         (Sample.to_resume_step ++ [ClickBackToJD])%list)
                      (TypeJdText "another job")
                = Some (Sample.world_after
                          (Sample.to_resume_step ++
                           [ClickBackToJD; TypeJdText "another job"])%list))
    by (vm_compute; reflexivity).
  destruct (session_cells_have_few_writers _ _ _ Hre) as (_ & _ & _ & _ & Hjd).
  apply Hjd. vm_compute; discriminate.
Defined.

(** ** The settings dialog *)

Lemma in_flight_settle_plain (i : nat) (t : Task) (l : list Task) :
  nth_error l i = Some t ->
  stage_request t = false ->
  filter stage_request (settle_at i None l) = filter stage_request l.
Proof.
  intros Hn Ht. destruct (settle_at_split i t None l Hn) as (l1 & l2 & -> & ->).
  rewrite !filter_app. simpl. rewrite Ht. reflexivity.
Qed.

(** X13.  The header controls, the settings dialog and the answers to the
    two threshold requests leave the evaluation alone: the stage cursor,
    the rubric, the artifacts, the three text fields, [loading] and
    [error] are unchanged and the stage requests in flight are the
    same. *)
Theorem settings_leave_the_evaluation_alone w e w' :
  react w e = Some w' ->
  header_control e = true \/
  (exists i r t, e = Settle i r /\ nth_error (pending w) i = Some t /\
                 thresholds_request t = true) ->
  same_evaluation_cells (ui w) (ui w') /\ in_flight w' = in_flight w.
Proof.
  intros H Hkind. unfold same_evaluation_cells, in_flight.
  destruct (react_cases _ _ _ H)
    as [(sent & Hc & Hp)|(i & r & t & next & E & Hn & Hr & Hp)];
    clear H; destruct w' as [h' p']; cbn [ui pending] in *; subst p'.
  - destruct Hkind as [Hh | (i & r & t & -> & _)]; [|discriminate Hc].
    destruct e; simpl in Hh; try discriminate Hh; open_click Hc; repeat split.
  - destruct Hkind as [Hh | (i' & r' & t' & E' & Hn' & Ht')];
      [subst e; discriminate Hh|].
    rewrite E in E'. inversion E'; subst i' r'.
    rewrite Hn in Hn'. inversion Hn'; subst t'.
    destruct t; simpl in Ht'; try discriminate Ht';
      destruct r as [[]|]; simpl in Hr; try discriminate Hr;
      inversion Hr; subst; clear Hr;
      (split; [repeat split | eapply in_flight_settle_plain; [exact Hn | reflexivity]]).
Qed.

Lemma settings_leave_the_evaluation_alone_witness :
  in_flight (Sample.world_after
               (Sample.to_resume_step ++
                [TypeResumeText "cv"; ClickEvaluateText; OpenSettings])%list)
  = in_flight (Sample.world_after
                 (Sample.to_resume_step ++
                  [TypeResumeText "cv"; ClickEvaluateText])%list).
Proof.
  apply (settings_leave_the_evaluation_alone
           (Sample.world_after
              (Sample.to_resume_step ++
               [TypeResumeText "cv"; ClickEvaluateText])%list)
           OpenSettings).
  - vm_compute; reflexivity.
  - left; reflexivity.
Defined.

(** X14.  Save Changes sends the thresholds as the form shows them, edits
    included, and changes nothing yet.  When the backend accepts them the
    dialog closes and the form keeps the saved values; when it rejects
    them the dialog stays open with the form as it was. *)
Theorem save_sends_the_edited_thresholds w l v :
  showSettings (ui w) = true ->
  exists w1,
    run w [EditThreshold l v; SaveChanges] = Some w1 /\
    pending w1
      = UpdateThresholds_post (editThreshold l v (thresholds (ui w))) :: pending w /\
    showSettings (ui w1) = true /\
    thresholds (ui w1) = editThreshold l v (thresholds (ui w)) /\
    (forall b, exists w2,
       react w1 (Settle 0 (Resolved b)) = Some w2 /\
       showSettings (ui w2) = false /\
       thresholds (ui w2) = thresholds (ui w1) /\
       pending w2 = pending w) /\
    (forall d, exists w2,
       react w1 (Settle 0 (Rejected d)) = Some w2 /\
       ui w2 = ui w1 /\ pending w2 = pending w).
Proof.
  intros Hs. unfold run, react, click. rewrite Hs. simpl. rewrite Hs. simpl.
  eexists; split; [reflexivity|]. simpl.
  repeat split; try assumption; intros; eexists; repeat split.
Qed.

Lemma save_sends_the_edited_thresholds_witness :
  exists w1,
    run (Sample.world_after [OpenSettings])
        [EditThreshold Level1 7.5; SaveChanges] = Some w1 /\
    pending w1 = [UpdateThresholds_post (mkThresholds 7.5 6.0 8.0);
                  FetchThresholds_get].
Proof.
  destruct (save_sends_the_edited_thresholds
              (Sample.world_after [OpenSettings]) Level1 7.5 eq_refl)
    as (w1 & Hrun & Hp & _).
  exists w1. split; [exact Hrun | exact Hp].
Defined.

(** X15.  Cancel and the close button only hide the dialog: an edit that
    was not saved stays in the form and nothing is sent.  Opening the
    settings again shows it and fetches the thresholds; the answer
    replaces the form, and if the fetch is rejected the unsaved edit
    stays. *)
Theorem cancel_keeps_unsaved_edits w l v :
  showSettings (ui w) = true ->
  exists w2 w3,
    run w [EditThreshold l v; CloseSettings] = Some w2 /\
    pending w2 = pending w /\
    showSettings (ui w2) = false /\
    thresholds (ui w2) = editThreshold l v (thresholds (ui w)) /\
    react w2 OpenSettings = Some w3 /\
    showSettings (ui w3) = true /\
    thresholds (ui w3) = editThreshold l v (thresholds (ui w)) /\
    pending w3 = FetchThresholds_get :: pending w /\
    (forall data, exists w4,
       react w3 (Settle 0 (Resolved (BodyThresholds data))) = Some w4 /\
       thresholds (ui w4) = data) /\
    (forall d, exists w4,
       react w3 (Settle 0 (Rejected d)) = Some w4 /\
       thresholds (ui w4) = editThreshold l v (thresholds (ui w))).
Proof.
  intros Hs. unfold run, react, click. rewrite Hs. simpl. rewrite Hs. simpl.
  eexists; eexists. split; [reflexivity|]. simpl.
  repeat split; intros; eexists; repeat split.
Qed.

Lemma cancel_keeps_unsaved_edits_witness :
  exists w2 w3,
    run (Sample.world_after [OpenSettings])
        [EditThreshold Level2 3.5; CloseSettings] = Some w2 /\
    thresholds (ui w2) = mkThresholds 7.0 3.5 8.0 /\
    react w2 OpenSettings = Some w3 /\
    thresholds (ui w3) = mkThresholds 7.0 3.5 8.0.
Proof.
  destruct (cancel_keeps_unsaved_edits
              (Sample.world_after [OpenSettings]) Level2 3.5 eq_refl)
    as (w2 & w3 & Hrun & _ & _ & Ht & Hopen & _ & Ht3 & _).
  exists w2, w3. repeat split; assumption.
Defined.

(** ** Navigation and typing while a request is loading *)

(** X16.  Navigation and typing never cancel or alter a request: the
    requests that wait are the same afterwards and [loading] keeps its
    value.  So after Start Over (or any other navigation) during a stage
    request, the controls that send a stage request stay without effect
    until that request settles. *)
Theorem navigation_never_cancels_a_request w e w' :
  navigation e = true \/ typing e = true ->
  react w e = Some w' ->
  pending w' = pending w /\
  loading (ui w') = loading (ui w) /\
  thresholds (ui w') = thresholds (ui w) /\
  (loading (ui w) = true ->
   forall e', starts_request e' = true -> react w' e' = None).
Proof.
  intros Hk H.
  apply react_click in H;
    [|destruct Hk as [Hk|Hk]; intros i r ->; discriminate Hk].
  destruct H as (sent & Hc & Hp).
  assert (Hfacts : sent = None /\ loading (ui w') = loading (ui w) /\
                   thresholds (ui w') = thresholds (ui w)).
  { clear Hp. destruct w' as [h' p']; cbn [ui] in *.
    destruct Hk as [Hk|Hk]; destruct e; simpl in Hk; try discriminate Hk;
      open_click Hc; repeat split. }
  destruct Hfacts as (-> & Hl & Ht). simpl in Hp.
  split; [exact Hp|]. split; [exact Hl|]. split; [exact Ht|].
  intros Hload e' He'. rewrite <- Hl in Hload.
  destruct e' as [| | | | | | |[f|]| | | |[f|]| | | | | | | | | | |];
    simpl in He'; try discriminate He';
    unfold react, click, guard; rewrite Hload, ?andb_false_r; reflexivity.
Qed.

Lemma navigation_never_cancels_a_request_witness :
  pending (Sample.world_after
             (Sample.analyzed ++ [ClickGenerateFinalVerdict; ClickStartOver])%list)
  = [GenerateFinalVerdict_post] /\
  react (Sample.world_after
           (Sample.analyzed ++ [ClickGenerateFinalVerdict; ClickStartOver])%list)
        (ChooseJdFile (Some "jd.pdf")) = None.
Proof.
  destruct (navigation_never_cancels_a_request
              (Sample.world_after (Sample.analyzed ++ [ClickGenerateFinalVerdict])%list)
              ClickStartOver
              (Sample.world_after
                 (Sample.analyzed ++ [ClickGenerateFinalVerdict; ClickStartOver])%list))
    as (Hp & _ & _ & Hdead).
  - left; reflexivity.
  - vm_compute; reflexivity.
  - split.
    + rewrite Hp. vm_compute; reflexivity.
    + apply Hdead; reflexivity.
Defined.

(** ** Export requests are not gated *)

(** X17.  The download button is not disabled by [loading] and does not
    set it: on the results view and on the verdict view it can be used any
    number of times in a row, also while a stage request is loading; each
    use adds one export request and changes no cell of the component. *)
Theorem export_can_be_requested_repeatedly w n :
  view4 (ui w) || view5 (ui w) = true ->
  run w (repeat ClickDownloadPDF n)
  = Some (mkWorld (ui w) (repeat DownloadPDF_get n ++ pending w)%list).
Proof.
  intros Hv. revert w Hv. induction n as [|n IH]; intros w Hv.
  - destruct w; reflexivity.
  - assert (H1 : react w ClickDownloadPDF
                 = Some (mkWorld (ui w) (DownloadPDF_get :: pending w)))
      by (unfold react, click; rewrite Hv; reflexivity).
    cbn [repeat run]. rewrite H1. rewrite IH by exact Hv. cbn [ui pending].
    change (DownloadPDF_get :: pending w)
      with ([DownloadPDF_get] ++ pending w)%list.
    rewrite app_assoc, <- repeat_cons. reflexivity.
Qed.

Lemma export_can_be_requested_repeatedly_witness :
  pending (Sample.world_after
             (Sample.analyzed ++
              [ClickGenerateFinalVerdict; ClickDownloadPDF; ClickDownloadPDF])%list)
  = [DownloadPDF_get; DownloadPDF_get; GenerateFinalVerdict_post].
Proof.
  assert (H := export_can_be_requested_repeatedly
                 (Sample.world_after
                    (Sample.analyzed ++ [ClickGenerateFinalVerdict])%list)
                 2 eq_refl).
  vm_compute in H. vm_compute. inversion H. reflexivity.
Defined.
